(** * Heading slugs and table of contents of [server.js]

    A shallow embedding of the heading pipeline of [src/server.js]: the
    slug chain used by [renderer.heading] and by [generateTOC], the line
    scanner of [generateTOC], the navigation block it builds and the
    request handler that composes the page.

    JavaScript strings are modelled as [string]: a sequence of 8-bit
    characters, read as the UTF-16 code units U+0000 to U+00FF.  On that
    range [String.prototype.toLowerCase] acts character by character and
    stays inside the range, the regular-expression class [\s] is
    U+0009..U+000D, U+0020 and U+00A0, [\w] is [A-Za-z0-9_], and the only
    line terminators that [.] refuses are U+000A and U+000D. *)

From Stdlib Require Import String Ascii List Bool Arith NArith ZArith Lia.
From Stdlib Require Import DecimalString.
From Equations Require Import Equations.
Import ListNotations.

Open Scope string_scope.
Open Scope bool_scope.

(** ** Characters *)

Module Char.

Definition code (c : ascii) : N := N_of_ascii c.

Definition between (lo hi : N) (c : ascii) : bool :=
  (lo <=? code c)%N && (code c <=? hi)%N.

Definition isUpper (c : ascii) : bool := between 65 90 c.
Definition isLower (c : ascii) : bool := between 97 122 c.
Definition isDigit (c : ascii) : bool := between 48 57 c.
Definition isUnderscore (c : ascii) : bool := (code c =? 95)%N.
Definition isHyphen (c : ascii) : bool := (code c =? 45)%N.
Definition isHash (c : ascii) : bool := (code c =? 35)%N.
Definition isNewline (c : ascii) : bool := (code c =? 10)%N.

(** [\w]: [A-Za-z0-9_]. *)
Definition isWord (c : ascii) : bool :=
  isUpper c || isLower c || isDigit c || isUnderscore c.

(** [\W]. *)
Definition isNonWord (c : ascii) : bool := negb (isWord c).

(** [\s], which is also the set [String.prototype.trim] removes:
    TAB, LF, VT, FF, CR, SPACE and NO-BREAK SPACE. *)
Definition isSpace (c : ascii) : bool :=
  between 9 13 c || (code c =? 32)%N || (code c =? 160)%N.

(** [.] without the [s] flag: anything but a line terminator. *)
Definition isDot (c : ascii) : bool :=
  negb ((code c =? 10)%N || (code c =? 13)%N).

(** The characters of the spec's class [[a-z0-9_]]. *)
Definition isSlugWord (c : ascii) : bool :=
  isLower c || isDigit c || isUnderscore c.

(** One character of [toLowerCase]: A-Z, and the Latin-1 capitals
    U+00C0..U+00DE except the multiplication sign U+00D7, move up by
    32. *)
Definition toLower (c : ascii) : ascii :=
  if isUpper c || (between 192 222 c && negb (code c =? 215)%N)
  then ascii_of_N (code c + 32)
  else c.

End Char.

(** ** String primitives *)

Module Str.

Fixpoint map (f : ascii -> ascii) (s : string) : string :=
  match s with
  | "" => ""
  | String c r => String (f c) (map f r)
  end.

Fixpoint takeWhile (p : ascii -> bool) (s : string) : string :=
  match s with
  | "" => ""
  | String c r => if p c then String c (takeWhile p r) else ""
  end.

Fixpoint dropWhile (p : ascii -> bool) (s : string) : string :=
  match s with
  | "" => ""
  | String c r => if p c then dropWhile p r else s
  end.

Fixpoint forallb (p : ascii -> bool) (s : string) : bool :=
  match s with
  | "" => true
  | String c r => p c && forallb p r
  end.

Fixpoint rev_onto (s acc : string) : string :=
  match s with
  | "" => acc
  | String c r => rev_onto r (String c acc)
  end.

Definition rev (s : string) : string := rev_onto s "".

Definition isEmpty (s : string) : bool :=
  match s with "" => true | _ => false end.

(** [s.split('\n')]: the pieces between newlines; always at least one
    piece, the last one possibly empty. *)
Fixpoint splitLines (s : string) : list string :=
  match s with
  | "" => [""]
  | String c r =>
      if Char.isNewline c then "" :: splitLines r
      else match splitLines r with
           | [] => [String c ""]
           | l :: ls => String c l :: ls
           end
  end.

(** [s.trim()]. *)
Definition trimStart (s : string) : string := dropWhile Char.isSpace s.
Definition trimEnd (s : string) : string :=
  rev (dropWhile Char.isSpace (rev s)).
Definition trim (s : string) : string := trimEnd (trimStart s).

(** [s.toLowerCase()]. *)
Definition toLowerCase (s : string) : string := map Char.toLower s.

(** The double-quote character, as a one-character string. *)
Definition dq : string := String (ascii_of_N 34) "".

Fixpoint drop (n : nat) (s : string) : string :=
  match n, s with
  | S n', String _ r => drop n' r
  | _, _ => s
  end.

Fixpoint replicate (n : nat) (c : ascii) : string :=
  match n with
  | O => ""
  | S n' => String c (replicate n' c)
  end.

(** Concatenation of a list of strings, in order. *)
Definition join (l : list string) : string := fold_right append "" l.

(** Decimal rendering of a number in a template literal. *)
Definition ofZ (z : Z) : string := NilZero.string_of_int (Z.to_int z).

End Str.

(** ** The slug chain

    [x.toLowerCase().replace(/\W+/g, '-').replace(/^-|-$/g, '')], written
    once in [renderer.heading] and once in [generateTOC]. *)

(** [.replace(/\W+/g, '-')]: the scan copies word characters; at a
    non-word character the greedy [\W+] takes the whole run, one hyphen is
    written for it and the scan resumes after the run. *)
Equations? replaceNonWordRuns (s : string) : string by wf (String.length s) lt :=
  replaceNonWordRuns "" := "";
  replaceNonWordRuns (String c r) with Char.isNonWord c := {
    | true := String "-" (replaceNonWordRuns (Str.dropWhile Char.isNonWord r));
    | false := String c (replaceNonWordRuns r) }.
Proof.
  - clear. induction r as [|d r IH]; simpl; [lia|].
    destruct (Char.isNonWord d); simpl; lia.
Qed.

(** [.replace(/^-|-$/g, '')]: every match is one hyphen, either at index 0
    (first alternative) or immediately before the end of the input (second
    alternative); [atStart] tells whether the scan is at index 0. *)
Fixpoint stripEdgeHyphensFrom (atStart : bool) (s : string) : string :=
  match s with
  | "" => ""
  | String c r =>
      if Char.isHyphen c && (atStart || Str.isEmpty r)
      then stripEdgeHyphensFrom false r
      else String c (stripEdgeHyphensFrom false r)
  end.

Definition stripEdgeHyphens (s : string) : string :=
  stripEdgeHyphensFrom true s.

(** The chain as [renderer.heading] writes it, on [String(text)]. *)
Definition headingSlug (base : string) : string :=
  stripEdgeHyphens (replaceNonWordRuns (Str.toLowerCase base)).

(** The chain as [generateTOC] writes it, on the trimmed title. *)
Definition tocSlug (title : string) : string :=
  stripEdgeHyphens (replaceNonWordRuns (Str.toLowerCase title)).

(** ** Console and response effects

    The code logs to the console and drives the response object; both are
    kept as a trace of events written next to the returned value. *)

Record HeadingRecord : Type := mkHeading
  { level : Z; title : string; slug : string }.

Inductive event : Type :=
| ConsoleLog (msg : string)
| ConsoleLogItems (label : string) (items : list HeadingRecord)
| ConsoleError (label : string) (err : string)
| ReadFile (file : string)
| MarkedParse (src : string)
| Status (code : Z)
| Send (body : string).

Definition Eff (A : Type) : Type := (A * list event)%type.

Definition ret {A} (a : A) : Eff A := (a, []).

Definition bind {A B} (m : Eff A) (k : A -> Eff B) : Eff B :=
  let (a, t1) := m in
  let (b, t2) := k a in
  (b, (t1 ++ t2)%list).

Definition tell (e : event) : Eff unit := (tt, [e]).

Definition value {A} (m : Eff A) : A := fst m.
Definition trace {A} (m : Eff A) : list event := snd m.

Notation "x <- m ;; k" := (bind m (fun x => k))
  (at level 61, m at next level, right associativity).
Notation "m ;;; k" := (bind m (fun _ => k))
  (at level 61, right associativity).

(** ** [renderer.heading] *)

Record Token : Type := mkToken { depth : Z; text : string }.

Definition heading (token : Token) : Eff string :=
  let level := depth token in
  let text := text token in
  let base := text in
  let slug := headingSlug base in
  tell (ConsoleLog ("Generated header: " ++ Str.dq ++ text ++ Str.dq
                    ++ " (level " ++ Str.ofZ level ++ ") with slug: "
                    ++ Str.dq ++ slug ++ Str.dq)) ;;;
  ret ("<h" ++ Str.ofZ level ++ " id=" ++ Str.dq ++ slug ++ Str.dq ++ ">"
       ++ text ++ "</h" ++ Str.ofZ level ++ ">").

(** ** [generateTOC] *)

(** The greedy [#{1,6}] at the start of the line: at most [n] leading
    hashes, and what follows them. *)
Fixpoint spanHashes (n : nat) (s : string) : string * string :=
  match n, s with
  | S n', String c r =>
      if Char.isHash c
      then let (h, rest) := spanHashes n' r in (String c h, rest)
      else ("", s)
  | _, _ => ("", s)
  end.

(** [line.match(headingRegex)], the regular expression being [^], a
    capture of [#{1,6}], [\s+], and a capture of a greedy run of [.]: the
    two captured groups.  After the hashes [\s+] needs a whitespace
    character and then takes the whole run; the last group takes everything
    up to the first line terminator.  Giving back hashes cannot help: the
    character after a shorter first group is a hash. *)
Definition headingRegex (line : string) : option (string * string) :=
  let (hashes, rest) := spanHashes 6 line in
  if Str.isEmpty hashes then None
  else match rest with
       | String c _ =>
           if Char.isSpace c
           then Some (hashes, Str.takeWhile Char.isDot
                                (Str.dropWhile Char.isSpace rest))
           else None
       | "" => None
       end.

(** The body of [lines.forEach]: the record pushed for one line, if any. *)
Definition headingRecord (line : string) : option HeadingRecord :=
  match headingRegex line with
  | Some (m1, m2) =>
      let level := Z.of_nat (String.length m1) in
      let title := Str.trim m2 in
      let slug := tocSlug title in
      Some (mkHeading level title slug)
  | None => None
  end.

(** [tocItems] after the [forEach] over the lines. *)
Definition tocItems (markdownData : string) : list HeadingRecord :=
  let lines := Str.splitLines markdownData in
  fold_left
    (fun tocItems line =>
       match headingRecord line with
       | Some item => (tocItems ++ [item])%list
       | None => tocItems
       end)
    lines [].

Definition navOpen : string :=
  "<nav id=" ++ Str.dq ++ "toc" ++ Str.dq ++ " style=" ++ Str.dq
  ++ "margin-bottom:20px; padding:10px; border:1px solid #ddd; background:#f0f0f0; border-radius:4px;"
  ++ Str.dq ++ "><h2>Table of Contents</h2>".

Definition navClose : string := "</nav>".

(** The text appended for one item. *)
Definition tocEntry (item : HeadingRecord) : string :=
  "<div style=" ++ Str.dq ++ "margin-left: "
  ++ Str.ofZ ((level item - 1) * 20)
  ++ "px;" ++ Str.dq ++ "><a href=" ++ Str.dq ++ "#" ++ slug item ++ Str.dq
  ++ ">" ++ title item ++ "</a></div>".

(** The second half of [generateTOC], from the collected items on. *)
Definition tocHtmlOf (tocItems : list HeadingRecord) : string :=
  if (List.length tocItems =? 0)%nat then ""
  else
    let tocHtml := navOpen in
    let tocHtml :=
      fold_left (fun tocHtml item => tocHtml ++ tocEntry item)
                tocItems tocHtml in
    tocHtml ++ navClose.

Definition generateTOC (markdownData : string) : Eff string :=
  let tocItems := tocItems markdownData in
  tell (ConsoleLogItems "Generated TOC Items:" tocItems) ;;;
  ret (tocHtmlOf tocItems).

(** ** The request handler *)

(** [s.replace(/\[object Object\]/g, '')] for a literal pattern: where the
    pattern starts it is skipped whole, elsewhere the character is kept.
    [skip] counts the characters of a match still to pass. *)
Fixpoint removeAllFrom (pat : string) (skip : nat) (s : string) : string :=
  match s with
  | "" => ""
  | String c r =>
      match skip with
      | S k => removeAllFrom pat k r
      | O =>
          if Str.isEmpty pat then String c (removeAllFrom pat 0 r)
          else if String.prefix pat s
               then removeAllFrom pat (String.length pat - 1) r
               else String c (removeAllFrom pat 0 r)
      end
  end.

Definition removeAll (pat s : string) : string := removeAllFrom pat 0 s.

Definition fallbackNotice : string :=
  "<p><em>Note: No headings found for navigation. Please ensure your Markdown file uses proper header syntax (e.g., "
  ++ Str.dq ++ "## Creational Design Patterns" ++ Str.dq ++ ").</em></p>".

(** The [if (!tocHtml) ... else ...] of the handler; the empty string is
    the only falsy string. *)
Definition compose (tocHtml htmlContent : string) : string :=
  if Str.isEmpty tocHtml then fallbackNotice ++ htmlContent
  else tocHtml ++ htmlContent.

Inductive readResult : Type :=
| ReadFailed (err : string)
| ReadOk (markdownData : string).

Definition readErrorBody : string :=
  "Internal Server Error: Could not read Markdown file.".

Section Server.

(** The conversion engine, [marked.parse], given the heading hook and the
    source; and the page template around [htmlContent]. *)
Variable markedParse : (Token -> Eff string) -> string -> Eff string.
Variables pageHead pageTail : string.

(** The callback passed to [fs.readFile]. *)
Definition onRead (r : readResult) : Eff unit :=
  match r with
  | ReadFailed err =>
      tell (ConsoleError "Error reading Markdown file:" err) ;;;
      tell (Status 500) ;;;
      tell (Send readErrorBody)
  | ReadOk markdownData =>
      tocHtml <- generateTOC markdownData ;;
      tell (MarkedParse markdownData) ;;;
      htmlContent <- markedParse heading markdownData ;;
      let htmlContent := removeAll "[object Object]" htmlContent in
      let htmlContent := compose tocHtml htmlContent in
      let fullHtml := pageHead ++ htmlContent ++ pageTail in
      tell (Send fullHtml)
  end.

(** [app.get('/')]: one read of [README.md], then the callback. *)
Definition getRoot (readFile : string -> readResult) : Eff unit :=
  tell (ReadFile "README.md") ;;;
  onRead (readFile "README.md").

End Server.

Definition nl : string := String (ascii_of_N 10) "".
Definition cr : string := String (ascii_of_N 13) "".

(** ** The slug algorithm in the words of the specification *)

(** Every maximal run of characters outside [[a-z0-9_]] becomes a single
    hyphen; [inRun] tells whether the previous character was in such a
    run. *)
Fixpoint collapseRunsFrom (inRun : bool) (s : string) : string :=
  match s with
  | "" => ""
  | String c r =>
      if Char.isSlugWord c then String c (collapseRunsFrom false r)
      else if inRun then collapseRunsFrom true r
           else String "-" (collapseRunsFrom true r)
  end.

Definition collapseRuns (s : string) : string := collapseRunsFrom false s.

Definition dropLeadingHyphen (s : string) : string :=
  match s with
  | String c r => if Char.isHyphen c then r else s
  | "" => ""
  end.

Fixpoint dropTrailingHyphen (s : string) : string :=
  match s with
  | "" => ""
  | String c r =>
      if Char.isHyphen c && Str.isEmpty r then ""
      else String c (dropTrailingHyphen r)
  end.

Definition slugSpec (s : string) : string :=
  dropTrailingHyphen (dropLeadingHyphen (collapseRuns (Str.toLowerCase s))).

(** ** Shapes of a slug *)

Definition isSlugChar (c : ascii) : bool :=
  Char.isSlugWord c || Char.isHyphen c.

Definition startsWithHyphen (s : string) : bool :=
  match s with
  | String c _ => Char.isHyphen c
  | "" => false
  end.

Fixpoint endsWithHyphen (s : string) : bool :=
  match s with
  | "" => false
  | String c "" => Char.isHyphen c
  | String _ r => endsWithHyphen r
  end.

Fixpoint hasAdjacentHyphens (s : string) : bool :=
  match s with
  | "" => false
  | String c r => (Char.isHyphen c && startsWithHyphen r) || hasAdjacentHyphens r
  end.

(** Only characters of [[a-z0-9_-]], no two hyphens in a row, no hyphen
    first or last. *)
Definition FragmentSafe (g : string) : Prop :=
  (forall c, In c (list_ascii_of_string g) -> isSlugChar c = true)
  /\ (forall a b, g <> a ++ "--" ++ b)
  /\ (forall r, g <> "-" ++ r)
  /\ (forall r, g <> r ++ "-").

(** ** Heading lines in the words of the specification *)

(** The count of leading [#]. *)
Definition leadingHashes (line : string) : nat :=
  String.length (Str.takeWhile Char.isHash line).

(** The line begins with 1 to 6 [#] followed by whitespace. *)
Definition isHeadingLine (line : string) : bool :=
  let n := leadingHashes line in
  (1 <=? n)%nat && (n <=? 6)%nat &&
  match Str.drop n line with
  | String c _ => Char.isSpace c
  | "" => false
  end.

(** The remainder of the line after its leading [#]. *)
Definition remainder (line : string) : string :=
  Str.drop (leadingHashes line) line.


(** Title with the cut that [.] makes: the remainder after its leading
    whitespace, up to the first carriage return, trimmed. *)
Definition cutRemainder (line : string) : string :=
  Str.trim (Str.takeWhile Char.isDot (Str.trimStart (remainder line))).

(** What follows the cut: empty, or a carriage return and the rest. *)
Definition afterCut (line : string) : string :=
  Str.dropWhile Char.isDot (Str.trimStart (remainder line)).

(** One record per heading line, for a given reading of the title. *)
Definition recordsWith (titleOf : string -> string) (markdownData : string)
  : list HeadingRecord :=
  flat_map
    (fun line =>
       if isHeadingLine line
       then [mkHeading (Z.of_nat (leadingHashes line)) (titleOf line)
                       (tocSlug (titleOf line))]
       else [])
    (Str.splitLines markdownData).

(** A way the heading pattern can match at the start of [line]: the hashes
    [m1] of the first group, the whitespace [ws] of [\s+], the second group
    [m2], and the rest of the line.  The engine tries the longest [m1]
    first, then the longest [ws], then the longest [m2]. *)
Definition HeadingMatch (line m1 ws m2 tail : string) : Prop :=
  line = m1 ++ ws ++ m2 ++ tail
  /\ Str.forallb Char.isHash m1 = true
  /\ (1 <= String.length m1 <= 6)%nat
  /\ Str.forallb Char.isSpace ws = true
  /\ ws <> ""
  /\ Str.forallb Char.isDot m2 = true.

(** The items one line contributes to [tocItems]. *)
Definition itemOf (line : string) : list HeadingRecord :=
  match headingRecord line with
  | Some item => [item]
  | None => []
  end.

Definition startsWithHash (s : string) : bool :=
  match s with
  | String c _ => Char.isHash c
  | "" => false
  end.

(** A string that [split] leaves whole: no newline in it. *)
Definition isLine (s : string) : bool :=
  Str.forallb (fun c => negb (Char.isNewline c)) s.

(** No character of [s] is one of A-Z. *)
Definition noUpper (s : string) : bool :=
  Str.forallb (fun c => negb (Char.isUpper c)) s.

(** ** Words of a title *)

(** The pieces of [s] between the characters [sep] accepts; empty pieces
    stand between adjacent separators and at the ends. *)
Fixpoint splitOn (sep : ascii -> bool) (s : string) : list string :=
  match s with
  | "" => [""]
  | String c r =>
      if sep c then "" :: splitOn sep r
      else match splitOn sep r with
           | [] => [String c ""]
           | p :: ps => String c p :: ps
           end
  end.

(** A character outside [[a-z0-9_]]. *)
Definition isSep (c : ascii) : bool := negb (Char.isSlugWord c).

Definition nonEmpty (s : string) : bool := negb (Str.isEmpty s).

Definition startsSep (s : string) : bool :=
  match s with
  | String c _ => isSep c
  | "" => false
  end.

(** The maximal runs of characters of [[a-z0-9_]] in [s], in order. *)
Definition wordRuns (s : string) : list string :=
  filter nonEmpty (splitOn isSep s).

(** A non-empty string of characters of [[a-z0-9_]]. *)
Definition isWordRun (w : string) : Prop :=
  nonEmpty w = true /\ Str.forallb Char.isSlugWord w = true.

(** The number of newline characters of [s]. *)
Fixpoint newlines (s : string) : nat :=
  match s with
  | "" => 0
  | String c r => if Char.isNewline c then S (newlines r) else newlines r
  end.

Definition startsWithSpace (s : string) : bool :=
  match s with
  | String c _ => Char.isSpace c
  | "" => false
  end.

(** ** Vocabulary for the handler *)

(** The character [c] does not occur in [s]. *)
Definition noChar (c : ascii) (s : string) : bool :=
  Str.forallb (fun d => negb (Ascii.eqb d c)) s.

Definition objectObject : string := "[object Object]".

Definition isSend (e : event) : bool :=
  match e with Send _ => true | _ => false end.

Definition isReadFile (e : event) : bool :=
  match e with ReadFile _ => true | _ => false end.

Definition isStatus (e : event) : bool :=
  match e with Status _ => true | _ => false end.

Definition countEvents (p : event -> bool) (t : list event) : nat :=
  List.length (filter p t).

(** ** The earlier heading hook (positional arguments)

    The version of the file that calls the hook as
    [heading(text, level, raw, slugger)].  The arguments are untyped; the
    values covered are strings, the integers a JavaScript number holds
    exactly (magnitude below 2^53), [undefined] and plain objects, with
    [String(v)] as JavaScript defines it on them: on such an integer it is
    the plain decimal numeral.  A slugger is an object with a [slug]
    method, or is absent. *)

Module Legacy.

Inductive jsValue : Type :=
| JsString (s : string)
| JsInteger (n : Z) (safe : (Z.abs n <? 2 ^ 53)%Z = true)
| JsUndefined
| JsObject.

(** [String(v)], which is also what a template literal interpolates. *)
Definition toStr (v : jsValue) : string :=
  match v with
  | JsString s => s
  | JsInteger n _ => Str.ofZ n
  | JsUndefined => "undefined"
  | JsObject => "[object Object]"
  end.

Definition heading (text level raw : jsValue)
    (slugger : option (string -> string)) : string :=
  let base :=
    match raw with
    | JsString r => r
    | _ => toStr text
    end in
  let slug :=
    match slugger with
    | Some slugOf => slugOf base
    | None =>
        stripEdgeHyphens (replaceNonWordRuns (Str.toLowerCase base))
    end in
  "<h" ++ toStr level ++ " id=" ++ Str.dq ++ slug ++ Str.dq ++ ">"
  ++ toStr text ++ "</h" ++ toStr level ++ ">".

End Legacy.

(** ** Sources with a heading line *)

(** Every line followed by a newline, in order. *)
Definition endLines (ls : list string) : string :=
  fold_right (fun line acc => line ++ nl ++ acc) "" ls.

(** Some line of the source is a heading line: between two newlines of the
    source, taken with a newline put before and after it, stands a heading
    line that holds no newline. *)
Definition HasHeadingLine (md : string) : Prop :=
  exists pre line post,
    nl ++ md ++ nl = pre ++ nl ++ line ++ nl ++ post
    /\ isLine line = true
    /\ isHeadingLine line = true.

(** * Proofs *)

(** ** Characters, by cases on the eight bits *)

Ltac by_bits c := destruct c as [[] [] [] [] [] [] [] []]; vm_compute; try reflexivity; try discriminate; auto.

Lemma toLower_not_upper c : Char.isUpper (Char.toLower c) = false.
Proof. by_bits c. Qed.

Lemma nonWord_slugWord c :
  Char.isUpper c = false -> Char.isNonWord c = negb (Char.isSlugWord c).
Proof. by_bits c. Qed.

Lemma hyphen_nonWord c : Char.isHyphen c = true -> Char.isNonWord c = true.
Proof. by_bits c. Qed.

Lemma hyphen_eq c : Char.isHyphen c = true -> c = "-"%char.
Proof. by_bits c. Qed.

Lemma word_lower_slugChar c :
  Char.isNonWord c = false -> Char.isUpper c = false -> isSlugChar c = true.
Proof. by_bits c. Qed.

(** ** Strings *)

Lemma append_nil_r s : s ++ "" = s.
Proof. induction s; simpl; congruence. Qed.

Lemma append_assoc (a b c : string) : (a ++ b) ++ c = a ++ b ++ c.
Proof. induction a; simpl; congruence. Qed.

Lemma forallb_append p a b :
  Str.forallb p (a ++ b) = Str.forallb p a && Str.forallb p b.
Proof.
  induction a as [|c a IH]; simpl; [reflexivity|].
  rewrite IH. now rewrite andb_assoc.
Qed.

Lemma forallb_In p s :
  Str.forallb p s = true ->
  forall c, In c (list_ascii_of_string s) -> p c = true.
Proof.
  induction s as [|d s IH]; simpl; intros H c Hc; [contradiction|].
  apply andb_true_iff in H as [Hd Hs].
  destruct Hc as [<-|Hc]; auto.
Qed.

(** ** The slug chain against the specification's algorithm *)

Lemma toLowerCase_noUpper s : noUpper (Str.toLowerCase s) = true.
Proof.
  unfold noUpper, Str.toLowerCase.
  induction s as [|c s IH]; simpl; [reflexivity|].
  now rewrite toLower_not_upper, IH.
Qed.

Lemma collapse_in_run s :
  noUpper s = true ->
  collapseRunsFrom true s
  = collapseRunsFrom false (Str.dropWhile Char.isNonWord s).
Proof.
  unfold noUpper.
  induction s as [|c s IH]; simpl; intros H; [reflexivity|].
  apply andb_true_iff in H as [Hc Hs].
  apply negb_true_iff in Hc.
  rewrite (nonWord_slugWord c Hc).
  destruct (Char.isSlugWord c) eqn:Ec; simpl.
  - now rewrite Ec.
  - now apply IH.
Qed.

Lemma noUpper_dropWhile p s :
  noUpper s = true -> noUpper (Str.dropWhile p s) = true.
Proof.
  unfold noUpper.
  induction s as [|c s IH]; simpl; intros H; [reflexivity|].
  destruct (p c); [|exact H].
  apply andb_true_iff in H as [_ Hs]. now apply IH.
Qed.

Lemma replaceNonWordRuns_collapse s :
  noUpper s = true -> replaceNonWordRuns s = collapseRuns s.
Proof.
  unfold collapseRuns.
  funelim (replaceNonWordRuns s); intros Hs.
  - reflexivity.
  - assert (Hc : Char.isUpper c = false).
    { unfold noUpper in Hs. simpl in Hs.
      apply andb_true_iff in Hs as [Hc _]. now apply negb_true_iff in Hc. }
    assert (Hr : noUpper r = true).
    { unfold noUpper in *. simpl in Hs. now apply andb_true_iff in Hs as [_ Hr]. }
    simpl. rewrite (nonWord_slugWord c Hc) in Heq.
    apply negb_true_iff in Heq. rewrite Heq.
    rewrite H by now apply noUpper_dropWhile.
    now rewrite collapse_in_run.
  - assert (Hc : Char.isUpper c = false).
    { unfold noUpper in Hs. simpl in Hs.
      apply andb_true_iff in Hs as [Hc _]. now apply negb_true_iff in Hc. }
    assert (Hr : noUpper r = true).
    { unfold noUpper in *. simpl in Hs. now apply andb_true_iff in Hs as [_ Hr]. }
    simpl. rewrite (nonWord_slugWord c Hc) in Heq.
    apply negb_false_iff in Heq. rewrite Heq.
    now rewrite H.
Qed.

Lemma stripFrom_false s : stripEdgeHyphensFrom false s = dropTrailingHyphen s.
Proof.
  induction s as [|c s IH]; simpl; [reflexivity|].
  rewrite IH. destruct (Char.isHyphen c && Str.isEmpty s) eqn:E; [|reflexivity].
  apply andb_true_iff in E as [_ E]. destruct s; [reflexivity|discriminate].
Qed.

Lemma stripEdgeHyphens_spec s :
  stripEdgeHyphens s = dropTrailingHyphen (dropLeadingHyphen s).
Proof.
  unfold stripEdgeHyphens. destruct s as [|c s]; simpl; [reflexivity|].
  rewrite stripFrom_false.
  destruct (Char.isHyphen c) eqn:E; simpl; [reflexivity|].
  now rewrite E.
Qed.

Lemma headingSlug_spec s : headingSlug s = slugSpec s.
Proof.
  unfold headingSlug, slugSpec.
  rewrite stripEdgeHyphens_spec, replaceNonWordRuns_collapse; [reflexivity|].
  apply toLowerCase_noUpper.
Qed.

Lemma tocSlug_headingSlug s : tocSlug s = headingSlug s.
Proof. reflexivity. Qed.

(** ** Shape of the result *)

Lemma slugWord_not_hyphen c : Char.isSlugWord c = true -> Char.isHyphen c = false.
Proof. by_bits c. Qed.

Lemma collapse_chars b s :
  Str.forallb isSlugChar (collapseRunsFrom b s) = true.
Proof.
  revert b. induction s as [|c s IH]; intros b; simpl; [reflexivity|].
  destruct (Char.isSlugWord c) eqn:Ec; simpl.
  - unfold isSlugChar at 1. now rewrite Ec, IH.
  - destruct b; simpl; now rewrite IH.
Qed.

Lemma collapse_hyphens s :
  forall b,
    hasAdjacentHyphens (collapseRunsFrom b s) = false
    /\ (b = true -> startsWithHyphen (collapseRunsFrom b s) = false).
Proof.
  induction s as [|c s IH]; intros b; simpl; [now split|].
  destruct (Char.isSlugWord c) eqn:Ec; simpl.
  - rewrite (slugWord_not_hyphen c Ec). simpl.
    split; [apply (IH false)|reflexivity].
  - destruct b; simpl.
    + apply (IH true).
    + destruct (IH true) as [Ha Hs]. rewrite Ha, Hs by reflexivity.
      split; [reflexivity|discriminate].
Qed.

Lemma dropLeading_chars p s :
  Str.forallb p s = true -> Str.forallb p (dropLeadingHyphen s) = true.
Proof.
  destruct s as [|c s]; simpl; [trivial|].
  intros H. destruct (Char.isHyphen c); [|exact H].
  now apply andb_true_iff in H as [_ H].
Qed.

Lemma dropTrailing_chars p s :
  Str.forallb p s = true -> Str.forallb p (dropTrailingHyphen s) = true.
Proof.
  induction s as [|c s IH]; simpl; [trivial|].
  intros H. apply andb_true_iff in H as [Hc Hs].
  destruct (Char.isHyphen c && Str.isEmpty s); simpl; [reflexivity|].
  now rewrite Hc, IH.
Qed.

Lemma dropLeading_adjacent s :
  hasAdjacentHyphens s = false ->
  hasAdjacentHyphens (dropLeadingHyphen s) = false
  /\ startsWithHyphen (dropLeadingHyphen s) = false.
Proof.
  destruct s as [|c s]; simpl; [now split|].
  intros H. apply orb_false_iff in H as [H1 H2].
  destruct (Char.isHyphen c) eqn:Ec; simpl in *.
  - now split.
  - rewrite Ec, H2. now split.
Qed.

Lemma dropTrailing_starts s :
  startsWithHyphen s = false -> startsWithHyphen (dropTrailingHyphen s) = false.
Proof.
  destruct s as [|c s]; simpl; [trivial|].
  intros H. rewrite H. simpl. exact H.
Qed.

Lemma startsWith_dropTrailing s :
  startsWithHyphen (dropTrailingHyphen s) = true -> startsWithHyphen s = true.
Proof.
  destruct s as [|c s]; simpl; [trivial|].
  destruct (Char.isHyphen c && Str.isEmpty s) eqn:E; simpl; [discriminate|trivial].
Qed.

Lemma dropTrailing_adjacent s :
  hasAdjacentHyphens s = false ->
  hasAdjacentHyphens (dropTrailingHyphen s) = false.
Proof.
  induction s as [|c s IH]; simpl; [trivial|].
  intros H. apply orb_false_iff in H as [H1 H2].
  destruct (Char.isHyphen c && Str.isEmpty s); simpl; [reflexivity|].
  rewrite (IH H2), orb_false_r.
  destruct (Char.isHyphen c); simpl in *; [|reflexivity].
  destruct (startsWithHyphen (dropTrailingHyphen s)) eqn:E; [|reflexivity].
  apply startsWith_dropTrailing in E. congruence.
Qed.

Lemma dropTrailing_empty s :
  dropTrailingHyphen s = "" -> s = "" \/ s = "-".
Proof.
  destruct s as [|c s]; simpl; [now left|].
  destruct (Char.isHyphen c && Str.isEmpty s) eqn:E; [|discriminate].
  apply andb_true_iff in E as [Ec Es].
  destruct s; [|discriminate]. rewrite (hyphen_eq c Ec). now right.
Qed.

Lemma dropTrailing_ends s :
  hasAdjacentHyphens s = false -> endsWithHyphen (dropTrailingHyphen s) = false.
Proof.
  induction s as [|c s IH]; simpl; [trivial|].
  intros H. apply orb_false_iff in H as [H1 H2].
  destruct (Char.isHyphen c && Str.isEmpty s) eqn:E; simpl; [reflexivity|].
  destruct (dropTrailingHyphen s) eqn:Ed.
  - apply dropTrailing_empty in Ed as [-> | ->]; simpl in *.
    + now rewrite andb_true_r in E.
    + now rewrite andb_true_r in H1.
  - now apply IH.
Qed.

Lemma slugSpec_shape s :
  Str.forallb isSlugChar (slugSpec s) = true
  /\ hasAdjacentHyphens (slugSpec s) = false
  /\ startsWithHyphen (slugSpec s) = false
  /\ endsWithHyphen (slugSpec s) = false.
Proof.
  unfold slugSpec, collapseRuns.
  set (t := collapseRunsFrom false (Str.toLowerCase s)).
  assert (Hc : Str.forallb isSlugChar t = true) by apply collapse_chars.
  assert (Ha : hasAdjacentHyphens t = false) by apply collapse_hyphens.
  destruct (dropLeading_adjacent t Ha) as [Ha' Hs'].
  repeat split.
  - now apply dropTrailing_chars, dropLeading_chars.
  - now apply dropTrailing_adjacent.
  - now apply dropTrailing_starts.
  - now apply dropTrailing_ends.
Qed.

(** The boolean shapes say what they should about substrings. *)

Lemma startsWithHyphen_false s :
  startsWithHyphen s = false -> forall r, s <> "-" ++ r.
Proof. intros H r ->. discriminate H. Qed.

Lemma endsWithHyphen_append r : endsWithHyphen (r ++ "-") = true.
Proof.
  induction r as [|c r IH]; simpl; [reflexivity|].
  destruct (r ++ "-") eqn:E; [|exact IH].
  destruct r; discriminate.
Qed.

Lemma endsWithHyphen_false s :
  endsWithHyphen s = false -> forall r, s <> r ++ "-".
Proof. intros H r ->. rewrite endsWithHyphen_append in H. discriminate. Qed.

Lemma hasAdjacentHyphens_append a b : hasAdjacentHyphens (a ++ "--" ++ b) = true.
Proof.
  induction a as [|c a IH]; simpl in *; [reflexivity|].
  rewrite IH. apply orb_true_r.
Qed.

Lemma hasAdjacentHyphens_false s :
  hasAdjacentHyphens s = false -> forall a b, s <> a ++ "--" ++ b.
Proof. intros H a b ->. rewrite hasAdjacentHyphens_append in H. discriminate. Qed.

(** ** Lines *)

Lemma splitLines_nonempty s : Str.splitLines s <> [].
Proof.
  destruct s as [|c s]; simpl; [discriminate|].
  destruct (Char.isNewline c); [discriminate|].
  destruct (Str.splitLines s); discriminate.
Qed.

Lemma splitLines_append a b :
  Str.splitLines (a ++ nl ++ b) = (Str.splitLines a ++ Str.splitLines b)%list.
Proof.
  induction a as [|c a IH]; [reflexivity|].
  change (String c a ++ nl ++ b) with (String c (a ++ nl ++ b)).
  cbn [Str.splitLines]. rewrite IH.
  destruct (Char.isNewline c); [reflexivity|].
  pose proof (splitLines_nonempty a) as Hne.
  destruct (Str.splitLines a); [contradiction|reflexivity].
Qed.

Lemma splitLines_line s : isLine s = true -> Str.splitLines s = [s].
Proof.
  unfold isLine.
  induction s as [|c s IH]; simpl; intros H; [reflexivity|].
  apply andb_true_iff in H as [Hc Hs]. apply negb_true_iff in Hc.
  now rewrite Hc, (IH Hs).
Qed.

(** ** [tocItems] line by line *)

Lemma tocItems_fold lines acc :
  fold_left
    (fun tocItems line =>
       match headingRecord line with
       | Some item => (tocItems ++ [item])%list
       | None => tocItems
       end)
    lines acc
  = (acc ++ flat_map itemOf lines)%list.
Proof.
  revert acc. induction lines as [|l ls IH]; intros acc; simpl.
  - now rewrite app_nil_r.
  - rewrite IH. unfold itemOf at 2.
    destruct (headingRecord l); simpl; [|reflexivity].
    now rewrite <- app_assoc.
Qed.

Lemma tocItems_flat_map md :
  tocItems md = flat_map itemOf (Str.splitLines md).
Proof. unfold tocItems. now rewrite tocItems_fold. Qed.

Lemma tocItems_append a b :
  tocItems (a ++ nl ++ b) = (tocItems a ++ tocItems b)%list.
Proof.
  now rewrite !tocItems_flat_map, splitLines_append, flat_map_app.
Qed.

Lemma tocItems_line line :
  isLine line = true -> tocItems line = itemOf line.
Proof.
  intros H. rewrite tocItems_flat_map, (splitLines_line _ H). simpl.
  apply app_nil_r.
Qed.

(** ** The heading pattern *)

Lemma hash_not_space c : Char.isHash c = true -> Char.isSpace c = false.
Proof. by_bits c. Qed.

Lemma space_not_hash c : Char.isSpace c = true -> Char.isHash c = false.
Proof. by_bits c. Qed.

Lemma drop_leadingHashes line :
  Str.drop (leadingHashes line) line = Str.dropWhile Char.isHash line.
Proof.
  unfold leadingHashes.
  induction line as [|c r IH]; simpl; [reflexivity|].
  destruct (Char.isHash c); simpl; [exact IH|reflexivity].
Qed.

Lemma spanHashes_within k line :
  (leadingHashes line <= k)%nat ->
  spanHashes k line
  = (Str.takeWhile Char.isHash line, Str.dropWhile Char.isHash line).
Proof.
  unfold leadingHashes. revert line.
  induction k as [|k IH]; intros [|c r]; simpl; intros H; try reflexivity.
  - destruct (Char.isHash c); simpl in *; [lia|reflexivity].
  - destruct (Char.isHash c); simpl in *; [|reflexivity].
    rewrite IH by lia. reflexivity.
Qed.

Lemma spanHashes_beyond k line :
  (k < leadingHashes line)%nat ->
  exists h c r,
    spanHashes k line = (h, String c r) /\ Char.isHash c = true.
Proof.
  unfold leadingHashes. revert line.
  induction k as [|k IH]; intros [|c r]; simpl; intros H; try lia.
  - destruct (Char.isHash c) eqn:Ec; simpl in *; [|lia].
    now exists "", c, r.
  - destruct (Char.isHash c) eqn:Ec; simpl in *; [|lia].
    destruct (IH r) as (h & d & t & E & Hd); [lia|].
    rewrite E. now exists (String c h), d, t.
Qed.

(** The regular expression matches exactly the heading lines, with the
    leading hashes as first group and the cut remainder, not yet trimmed,
    as second. *)
Lemma headingRegex_spec line :
  headingRegex line
  = if isHeadingLine line
    then Some (Str.takeWhile Char.isHash line,
               Str.takeWhile Char.isDot (Str.trimStart (remainder line)))
    else None.
Proof.
  unfold headingRegex, isHeadingLine, remainder.
  rewrite drop_leadingHashes.
  destruct (Nat.le_gt_cases (leadingHashes line) 6) as [Hle|Hgt].
  - rewrite (spanHashes_within 6 line Hle).
    apply Nat.leb_le in Hle. rewrite Hle, andb_true_r.
    unfold leadingHashes.
    destruct (Str.takeWhile Char.isHash line) eqn:Eh; simpl; [reflexivity|].
    destruct (Str.dropWhile Char.isHash line) as [|c r]; [reflexivity|].
    destruct (Char.isSpace c); reflexivity.
  - destruct (spanHashes_beyond 6 line Hgt) as (h & c & r & E & Hc).
    rewrite E. rewrite (hash_not_space c Hc).
    apply Nat.leb_gt in Hgt. rewrite Hgt, andb_false_r. simpl.
    destruct (Str.isEmpty h); reflexivity.
Qed.

Lemma headingRecord_spec line :
  headingRecord line
  = if isHeadingLine line
    then Some (mkHeading (Z.of_nat (leadingHashes line)) (cutRemainder line)
                         (tocSlug (cutRemainder line)))
    else None.
Proof.
  unfold headingRecord. rewrite headingRegex_spec.
  destruct (isHeadingLine line); reflexivity.
Qed.

Lemma tocItems_recordsWith md : tocItems md = recordsWith cutRemainder md.
Proof.
  rewrite tocItems_flat_map. unfold recordsWith.
  apply flat_map_ext. intros line. unfold itemOf.
  rewrite headingRecord_spec. destruct (isHeadingLine line); reflexivity.
Qed.

(** ** Trimming *)

Lemma rev_onto_append s acc : Str.rev_onto s acc = Str.rev s ++ acc.
Proof.
  unfold Str.rev. revert acc.
  induction s as [|c s IH]; intros acc; simpl; [reflexivity|].
  rewrite IH, (IH (String c "")), append_assoc. reflexivity.
Qed.

Lemma rev_append a b : Str.rev (a ++ b) = Str.rev b ++ Str.rev a.
Proof.
  induction a as [|c a IH]; simpl.
  - now rewrite append_nil_r.
  - unfold Str.rev in *. simpl.
    rewrite (rev_onto_append (a ++ b)), (rev_onto_append a).
    unfold Str.rev. rewrite IH, append_assoc. reflexivity.
Qed.

Lemma forallb_rev p s : Str.forallb p (Str.rev s) = Str.forallb p s.
Proof.
  induction s as [|c s IH]; [reflexivity|].
  change (String c s) with (String c "" ++ s) at 1.
  rewrite rev_append, forallb_append, IH. simpl.
  rewrite andb_true_r. apply andb_comm.
Qed.

Lemma dropWhile_all_append p w t :
  Str.forallb p w = true -> Str.dropWhile p (w ++ t) = Str.dropWhile p t.
Proof.
  induction w as [|c w IH]; simpl; intros H; [reflexivity|].
  apply andb_true_iff in H as [Hc Hw]. rewrite Hc. now apply IH.
Qed.


Lemma takeWhile_dropWhile p s :
  Str.takeWhile p s ++ Str.dropWhile p s = s.
Proof.
  induction s as [|c s IH]; simpl; [reflexivity|].
  destruct (p c); simpl; [now rewrite IH|reflexivity].
Qed.

Lemma dropWhile_head p s :
  match Str.dropWhile p s with
  | String c _ => p c = false
  | "" => True
  end.
Proof.
  induction s as [|c s IH]; simpl; [exact I|].
  destruct (p c) eqn:E; [exact IH|exact E].
Qed.



(** ** The navigation block *)

Lemma tocHtml_fold items acc :
  fold_left (fun tocHtml item => tocHtml ++ tocEntry item) items acc
  = acc ++ Str.join (List.map tocEntry items).
Proof.
  revert acc. induction items as [|i items IH]; intros acc; simpl.
  - now rewrite append_nil_r.
  - now rewrite IH, append_assoc.
Qed.

Lemma tocHtmlOf_cons item items :
  tocHtmlOf (item :: items)
  = navOpen ++ Str.join (List.map tocEntry (item :: items)) ++ navClose.
Proof.
  unfold tocHtmlOf.
  change (List.length (item :: items) =? 0)%nat with false. cbv iota zeta.
  now rewrite tocHtml_fold, append_assoc.
Qed.

Lemma tocHtmlOf_nil : tocHtmlOf [] = "".
Proof. reflexivity. Qed.

Lemma generateTOC_value md : value (generateTOC md) = tocHtmlOf (tocItems md).
Proof. reflexivity. Qed.

Lemma generateTOC_trace md :
  trace (generateTOC md) = [ConsoleLogItems "Generated TOC Items:" (tocItems md)].
Proof. reflexivity. Qed.

Lemma slugSpec_fragmentSafe s : FragmentSafe (slugSpec s).
Proof.
  destruct (slugSpec_shape s) as (Hc & Ha & Hs & He).
  repeat split.
  - now apply forallb_In.
  - now apply hasAdjacentHyphens_false.
  - now apply startsWithHyphen_false.
  - now apply endsWithHyphen_false.
Qed.

(** ** The heading pattern against its backtracking reading *)

Lemma takeWhile_all_append p a t :
  Str.forallb p a = true ->
  Str.takeWhile p (a ++ t) = a ++ Str.takeWhile p t.
Proof.
  induction a as [|c a IH]; simpl; intros H; [reflexivity|].
  apply andb_true_iff in H as [Hc Ha]. now rewrite Hc, (IH Ha).
Qed.

Lemma takeWhile_all p s : Str.forallb p (Str.takeWhile p s) = true.
Proof.
  induction s as [|c s IH]; simpl; [reflexivity|].
  destruct (p c) eqn:E; simpl; [now rewrite E|reflexivity].
Qed.

Lemma takeWhile_stop p c r : p c = false -> Str.takeWhile p (String c r) = "".
Proof. intros H. simpl. now rewrite H. Qed.

Lemma length_append a b :
  String.length (a ++ b) = (String.length a + String.length b)%nat.
Proof. induction a; simpl; congruence. Qed.

Lemma append_cancel_l a b c : a ++ b = a ++ c -> b = c.
Proof. induction a; simpl; intros H; [exact H|]. injection H. auto. Qed.

Lemma drop_append a t : Str.drop (String.length a) (a ++ t) = t.
Proof. induction a; simpl; [destruct t; reflexivity|assumption]. Qed.

(** A candidate match fixes the first group and makes the line a heading
    line. *)
Lemma headingMatch_hashes line m1 ws m2 tail :
  HeadingMatch line m1 ws m2 tail ->
  Str.takeWhile Char.isHash line = m1
  /\ remainder line = ws ++ m2 ++ tail
  /\ isHeadingLine line = true.
Proof.
  intros (-> & Hh & [H1 H6] & Hs & Hne & Hd).
  destruct ws as [|c w]; [contradiction|].
  cbn [Str.forallb] in Hs. apply andb_true_iff in Hs as [Hc Hw].
  assert (Et : Str.takeWhile Char.isHash (m1 ++ String c w ++ m2 ++ tail) = m1).
  { rewrite (takeWhile_all_append _ _ _ Hh).
    cbn [append]. rewrite takeWhile_stop by now apply space_not_hash.
    apply append_nil_r. }
  assert (Er : remainder (m1 ++ String c w ++ m2 ++ tail)
               = String c w ++ m2 ++ tail).
  { unfold remainder, leadingHashes. rewrite Et. apply drop_append. }
  split; [exact Et|]. split; [exact Er|].
  unfold isHeadingLine. fold (remainder (m1 ++ String c w ++ m2 ++ tail)).
  rewrite Er. unfold leadingHashes. rewrite Et.
  apply Nat.leb_le in H1, H6. rewrite H1, H6. exact Hc.
Qed.

(** What [headingRegex] returns is a match. *)
Lemma headingRegex_sound line m1 m2 :
  headingRegex line = Some (m1, m2) ->
  HeadingMatch line m1 (Str.takeWhile Char.isSpace (remainder line)) m2
               (afterCut line).
Proof.
  rewrite headingRegex_spec.
  destruct (isHeadingLine line) eqn:E; [|discriminate].
  intros H. injection H as <- <-.
  unfold isHeadingLine in E. fold (remainder line) in E.
  apply andb_true_iff in E as [E Hc]. apply andb_true_iff in E as [H1 H6].
  apply Nat.leb_le in H1, H6.
  unfold HeadingMatch, afterCut, Str.trimStart.
  rewrite takeWhile_dropWhile, takeWhile_dropWhile.
  unfold remainder. rewrite drop_leadingHashes, takeWhile_dropWhile.
  repeat split; try apply takeWhile_all; try assumption.
  fold (remainder line). rewrite <- drop_leadingHashes. fold (remainder line).
  destruct (remainder line) as [|c r]; [discriminate|].
  simpl. rewrite Hc. discriminate.
Qed.

(** It is the first match in the engine's order: every candidate has the
    same first group, a whitespace run no longer than the one taken, and,
    with that same run, a second group no longer than the one returned. *)
Lemma headingRegex_greedy line m1 m2 m1' ws' m2' tail' :
  headingRegex line = Some (m1, m2) ->
  HeadingMatch line m1' ws' m2' tail' ->
  m1' = m1
  /\ (exists x, Str.takeWhile Char.isSpace (remainder line) = ws' ++ x)
  /\ (ws' = Str.takeWhile Char.isSpace (remainder line) ->
      exists y, m2 = m2' ++ y).
Proof.
  intros H M.
  destruct (headingMatch_hashes _ _ _ _ _ M) as (Et & Er & Eh).
  rewrite headingRegex_spec, Eh in H. injection H as <- <-.
  destruct M as (_ & _ & _ & Hs & _ & Hd).
  split; [now rewrite Et|]. split.
  - rewrite Er, (takeWhile_all_append _ _ _ Hs). eauto.
  - intros Ews. unfold Str.trimStart.
    assert (Ed : Str.dropWhile Char.isSpace (remainder line) = m2' ++ tail').
    { apply (append_cancel_l ws'). rewrite <- Er. rewrite Ews at 1.
      apply takeWhile_dropWhile. }
    rewrite Ed, (takeWhile_all_append _ _ _ Hd). eauto.
Qed.

(** Where [headingRegex] fails no match exists. *)
Lemma headingRegex_complete line m1 ws m2 tail :
  HeadingMatch line m1 ws m2 tail -> headingRegex line <> None.
Proof.
  intros M. destruct (headingMatch_hashes _ _ _ _ _ M) as (_ & _ & Eh).
  rewrite headingRegex_spec, Eh. discriminate.
Qed.

(** ** Sources with and without heading lines *)

Lemma tocItems_none md :
  existsb isHeadingLine (Str.splitLines md) = false -> tocItems md = [].
Proof.
  rewrite tocItems_recordsWith. unfold recordsWith.
  induction (Str.splitLines md) as [|l ls IH]; simpl; [reflexivity|].
  intros H. apply orb_false_iff in H as [Hl Hls].
  now rewrite Hl, (IH Hls).
Qed.

Lemma tocItems_some md :
  existsb isHeadingLine (Str.splitLines md) = true ->
  exists item items, tocItems md = item :: items.
Proof.
  rewrite tocItems_recordsWith. unfold recordsWith.
  induction (Str.splitLines md) as [|l ls IH]; simpl; [discriminate|].
  destruct (isHeadingLine l); simpl; intros H.
  - eexists _, _. reflexivity.
  - exact (IH H).
Qed.

Lemma isEmpty_navOpen_append x : Str.isEmpty (navOpen ++ x) = false.
Proof. reflexivity. Qed.

Lemma join_append (l1 l2 : list string) :
  Str.join (l1 ++ l2) = Str.join l1 ++ Str.join l2.
Proof.
  induction l1 as [|a l1 IH]; simpl; [reflexivity|].
  now rewrite IH, append_assoc.
Qed.

(** ** Lines of hashes and whitespace *)

Lemma takeWhile_hashes n ws :
  startsWithHash ws = false ->
  Str.takeWhile Char.isHash (Str.replicate n "#" ++ ws) = Str.replicate n "#".
Proof.
  intros H. induction n as [|n IH].
  - destruct ws as [|c r]; [reflexivity|].
    cbn [Str.replicate append Str.takeWhile]. cbn [startsWithHash] in H.
    now rewrite H.
  - cbn [Str.replicate append Str.takeWhile]. rewrite IH. reflexivity.
Qed.

Lemma length_replicate n c : String.length (Str.replicate n c) = n.
Proof. induction n; simpl; congruence. Qed.

Lemma drop_replicate n c ws : Str.drop n (Str.replicate n c ++ ws) = ws.
Proof. induction n; simpl; [destruct ws; reflexivity|assumption]. Qed.

Lemma dropWhile_all p w : Str.forallb p w = true -> Str.dropWhile p w = "".
Proof.
  intros H. rewrite <- (append_nil_r w). now rewrite dropWhile_all_append.
Qed.

Lemma headingRecord_blank n ws :
  (1 <= n <= 6)%nat -> ws <> "" -> Str.forallb Char.isSpace ws = true ->
  headingRecord (Str.replicate n "#" ++ ws) = Some (mkHeading (Z.of_nat n) "" "").
Proof.
  intros Hn Hne Hws.
  destruct ws as [|c r]; [contradiction|].
  simpl in Hws. apply andb_true_iff in Hws as [Hc Hr].
  assert (Hh : startsWithHash (String c r) = false) by now apply space_not_hash.
  rewrite headingRecord_spec.
  unfold isHeadingLine, cutRemainder, remainder, leadingHashes.
  rewrite (takeWhile_hashes n _ Hh), length_replicate, drop_replicate.
  destruct Hn as [H1 H6].
  apply Nat.leb_le in H1, H6. rewrite H1, H6, Hc. simpl.
  unfold Str.trimStart. simpl. rewrite Hc, (dropWhile_all _ _ Hr).
  reflexivity.
Qed.

(** ** Heading lines of a source, without [split] *)

Lemma concat_nl_cons c q l :
  String.concat nl (String c q :: l) = String c (String.concat nl (q :: l)).
Proof. destruct l; reflexivity. Qed.

Lemma newline_char c : Char.isNewline c = true -> c = ascii_of_N 10.
Proof. by_bits c. Qed.

Lemma splitLines_concat s : String.concat nl (Str.splitLines s) = s.
Proof.
  induction s as [|c s IH]; [reflexivity|].
  pose proof (splitLines_nonempty s) as Hne.
  cbn [Str.splitLines].
  destruct (Str.splitLines s) as [|p ps]; [contradiction|].
  destruct (Char.isNewline c) eqn:Ec.
  - change (String.concat nl ("" :: p :: ps))
      with (String (ascii_of_N 10) (String.concat nl (p :: ps))).
    now rewrite IH, (newline_char c Ec).
  - now rewrite concat_nl_cons, IH.
Qed.

Lemma splitLines_isLine s :
  Forall (fun line => isLine line = true) (Str.splitLines s).
Proof.
  induction s as [|c s IH]; [repeat constructor|].
  pose proof (splitLines_nonempty s) as Hne.
  cbn [Str.splitLines].
  destruct (Str.splitLines s) as [|p ps]; [contradiction|].
  destruct (Char.isNewline c) eqn:Ec.
  - constructor; [reflexivity|exact IH].
  - inversion IH; subst. constructor; [|assumption].
    unfold isLine in *. simpl. now rewrite Ec.
Qed.

Lemma concat_endLines ls :
  ls <> [] -> String.concat nl ls ++ nl = endLines ls.
Proof.
  induction ls as [|x ls IH]; [contradiction|]. intros _.
  destruct ls as [|y ls].
  - reflexivity.
  - change (String.concat nl (x :: y :: ls))
      with (x ++ nl ++ String.concat nl (y :: ls)).
    rewrite !append_assoc, IH by discriminate. reflexivity.
Qed.

Lemma endLines_app l1 l2 : endLines (l1 ++ l2) = endLines l1 ++ endLines l2.
Proof.
  induction l1 as [|x l1 IH]; [reflexivity|].
  change (endLines ((x :: l1) ++ l2)) with (x ++ nl ++ endLines (l1 ++ l2)).
  change (endLines (x :: l1)) with (x ++ nl ++ endLines l1).
  now rewrite IH, !append_assoc.
Qed.

Lemma endLines_after_newline l1 : exists pre, nl ++ endLines l1 = pre ++ nl.
Proof.
  induction l1 as [|x l1 (pre & IH)].
  - exists "". reflexivity.
  - exists (nl ++ x ++ pre).
    change (endLines (x :: l1)) with (x ++ nl ++ endLines l1).
    now rewrite IH, !append_assoc.
Qed.

Lemma in_splitLines_cut md line :
  In line (Str.splitLines md) ->
  exists pre post, nl ++ md ++ nl = pre ++ nl ++ line ++ nl ++ post.
Proof.
  intros Hin. apply in_split in Hin as (l1 & l2 & E).
  destruct (endLines_after_newline l1) as (pre & Hpre).
  exists pre, (endLines l2).
  rewrite <- (splitLines_concat md) at 1.
  rewrite (concat_endLines _ (splitLines_nonempty md)), E, endLines_app.
  change (endLines (line :: l2)) with (line ++ nl ++ endLines l2).
  now rewrite <- append_assoc, Hpre, append_assoc.
Qed.

Lemma cut_in_splitLines md pre line post :
  nl ++ md ++ nl = pre ++ nl ++ line ++ nl ++ post ->
  isLine line = true -> line <> "" ->
  In line (Str.splitLines md).
Proof.
  intros E Hline Hne.
  assert (L : Str.splitLines (nl ++ md ++ nl)
              = ("" :: Str.splitLines md ++ [""])%list).
  { change (nl ++ md ++ nl) with ("" ++ nl ++ md ++ nl).
    rewrite splitLines_append.
    change (md ++ nl) with (md ++ nl ++ "").
    rewrite splitLines_append. reflexivity. }
  assert (R : In line (Str.splitLines (pre ++ nl ++ line ++ nl ++ post))).
  { rewrite !splitLines_append, (splitLines_line _ Hline).
    apply in_or_app. right. now left. }
  rewrite <- E, L in R.
  destruct R as [R|R]; [now subst|].
  apply in_app_or in R as [R|[R|[]]]; [exact R|now subst].
Qed.

Lemma hasHeadingLine_iff md :
  existsb isHeadingLine (Str.splitLines md) = true <-> HasHeadingLine md.
Proof.
  split.
  - intros H. apply existsb_exists in H as (line & Hin & Hh).
    destruct (in_splitLines_cut md line Hin) as (pre & post & E).
    exists pre, line, post. repeat split; [exact E| |exact Hh].
    pose proof (splitLines_isLine md) as Hall.
    rewrite Forall_forall in Hall. now apply Hall.
  - intros (pre & line & post & E & Hline & Hh).
    apply existsb_exists. exists line. split; [|exact Hh].
    apply (cut_in_splitLines md pre line post E Hline).
    intros ->. discriminate Hh.
Qed.

(** * The claims *)

(** C1: for a heading whose title has no inline markup the engine hands
    [renderer.heading] the very string [generateTOC] trimmed out of the
    line; both slug chains give the same result on the same string, so the
    [id] of the emitted heading element is the slug of the TOC record, which
    is the fragment its entry links to. *)
Theorem toc_slug_is_heading_id (s line : string) (item : HeadingRecord) :
  headingRecord line = Some item ->
  tocSlug s = headingSlug s
  /\ slug item = headingSlug (title item)
  /\ value (heading (mkToken (level item) (title item)))
     = "<h" ++ Str.ofZ (level item) ++ " id=" ++ Str.dq ++ slug item ++ Str.dq
       ++ ">" ++ title item ++ "</h" ++ Str.ofZ (level item) ++ ">"
  /\ tocEntry item
     = "<div style=" ++ Str.dq ++ "margin-left: "
       ++ Str.ofZ ((level item - 1) * 20) ++ "px;" ++ Str.dq
       ++ "><a href=" ++ Str.dq ++ "#" ++ slug item ++ Str.dq ++ ">"
       ++ title item ++ "</a></div>".
Proof.
  intros H. unfold headingRecord in H.
  destruct (headingRegex line) as [[m1 m2]|]; [|discriminate].
  injection H as <-. simpl. repeat split.
Qed.

Lemma toc_slug_is_heading_id_witness :
  headingRecord "## Section One"
  = Some (mkHeading 2 "Section One" "section-one")
  /\ value (heading (mkToken 2 "Section One"))
     = "<h2 id=" ++ Str.dq ++ "section-one" ++ Str.dq ++ ">Section One</h2>".
Proof.
  split; [vm_compute; reflexivity|].
  apply (toc_slug_is_heading_id "" "## Section One"
           (mkHeading 2 "Section One" "section-one")).
  vm_compute; reflexivity.
Defined.

(** C3: the slug chain lowercases its input, replaces every maximal run of
    characters outside [[a-z0-9_]] by one hyphen and strips a leading and a
    trailing hyphen; the three values the specification lists. *)
Theorem slug_algorithm :
  (forall s, headingSlug s = slugSpec s /\ tocSlug s = slugSpec s)
  /\ headingSlug "Hello World" = "hello-world"
  /\ headingSlug "  Multiple   Spaces!! " = "multiple-spaces"
  /\ headingSlug "" = "".
Proof.
  split; [|repeat split; vm_compute; reflexivity].
  intros s. change (tocSlug s) with (headingSlug s).
  split; apply headingSlug_spec.
Qed.

(** C9: whatever the input, the slug has only characters of [[a-z0-9_-]],
    no two adjacent hyphens, and no hyphen at either end; this holds for the
    [id] that [renderer.heading] emits and for the fragment of a TOC
    entry. *)
Theorem slug_fragment_safe (s : string) :
  FragmentSafe (headingSlug s) /\ FragmentSafe (tocSlug s).
Proof.
  change (tocSlug s) with (headingSlug s).
  rewrite headingSlug_spec.
  split; apply slugSpec_fragmentSafe.
Qed.




(** C5: for a non-empty list of records the navigation block is the
    opening, one entry per record in list order, and the closing; an entry
    is a [div] indented by 20 pixels per level above 1 holding a link to
    [#slug] whose text is the title as it is; nothing is removed, so a line
    occurring twice gives two equal entries with the same target. *)
Theorem toc_entries_in_order (items : list HeadingRecord) (line : string)
    (item : HeadingRecord) :
  items <> [] ->
  isLine line = true ->
  headingRecord line = Some item ->
  tocHtmlOf items = navOpen ++ Str.join (List.map tocEntry items) ++ navClose
  /\ List.length (List.map tocEntry items) = List.length items
  /\ (forall i,
        tocEntry i
        = "<div style=" ++ Str.dq ++ "margin-left: "
          ++ Str.ofZ ((level i - 1) * 20) ++ "px;" ++ Str.dq
          ++ "><a href=" ++ Str.dq ++ "#" ++ slug i ++ Str.dq ++ ">"
          ++ title i ++ "</a></div>")
  /\ tocItems (line ++ nl ++ line) = [item; item]
  /\ value (generateTOC (line ++ nl ++ line))
     = navOpen ++ tocEntry item ++ tocEntry item ++ navClose.
Proof.
  intros Hne Hline Hrec.
  split.
  { destruct items as [|i items]; [contradiction|]. apply tocHtmlOf_cons. }
  split; [apply length_map|].
  split; [reflexivity|].
  assert (E : tocItems (line ++ nl ++ line) = [item; item]).
  { rewrite tocItems_append, (tocItems_line _ Hline). unfold itemOf.
    now rewrite Hrec. }
  split; [exact E|].
  rewrite generateTOC_value, E, tocHtmlOf_cons.
  unfold Str.join. cbn [List.map fold_right].
  now rewrite append_nil_r, append_assoc.
Qed.

Lemma toc_entries_in_order_witness :
  tocHtmlOf [mkHeading 1 "A" "a"; mkHeading 2 "<b>B</b>" "b-b-b"]
  = navOpen
    ++ "<div style=" ++ Str.dq ++ "margin-left: 0px;" ++ Str.dq
    ++ "><a href=" ++ Str.dq ++ "#a" ++ Str.dq ++ ">A</a></div>"
    ++ "<div style=" ++ Str.dq ++ "margin-left: 20px;" ++ Str.dq
    ++ "><a href=" ++ Str.dq ++ "#b-b-b" ++ Str.dq ++ "><b>B</b></a></div>"
    ++ navClose
  /\ tocItems ("# Same" ++ nl ++ "# Same")
     = [mkHeading 1 "Same" "same"; mkHeading 1 "Same" "same"].
Proof.
  assert (H := toc_entries_in_order
                 [mkHeading 1 "A" "a"; mkHeading 2 "<b>B</b>" "b-b-b"]
                 "# Same" (mkHeading 1 "Same" "same")).
  destruct H as (H1 & _ & _ & H4 & _);
    [discriminate | vm_compute; reflexivity | vm_compute; reflexivity |].
  split; [|exact H4].
  rewrite H1. vm_compute. reflexivity.
Defined.

(** C6: a heading line between the two fence lines of a fenced code block
    is collected like any other; each line is matched on its own and what
    the other lines are does not matter. *)
Theorem heading_line_inside_fence (pre post line : string) (item : HeadingRecord) :
  isLine line = true ->
  headingRecord line = Some item ->
  tocItems (pre ++ nl ++ "```" ++ nl ++ line ++ nl ++ "```" ++ nl ++ post)
  = (tocItems pre ++ item :: tocItems post)%list.
Proof.
  intros Hline Hrec.
  rewrite !tocItems_append, (tocItems_line _ Hline).
  unfold itemOf. rewrite Hrec. reflexivity.
Qed.

Lemma heading_line_inside_fence_witness :
  isHeadingLine "# not a heading" = true
  /\ tocItems ("Intro" ++ nl ++ "```" ++ nl ++ "# not a heading" ++ nl
               ++ "```" ++ nl ++ "Outro")
     = [mkHeading 1 "not a heading" "not-a-heading"].
Proof.
  split; [vm_compute; reflexivity|].
  apply (heading_line_inside_fence "Intro" "Outro" "# not a heading"
           (mkHeading 1 "not a heading" "not-a-heading"));
    vm_compute; reflexivity.
Defined.

Lemma onRead_ok markedParse pageHead pageTail md :
  onRead markedParse pageHead pageTail (ReadOk md)
  = (tt,
     (ConsoleLogItems "Generated TOC Items:" (tocItems md)
      :: MarkedParse md
      :: trace (markedParse heading md)
      ++ [Send (pageHead
                ++ compose (tocHtmlOf (tocItems md))
                     (removeAll "[object Object]"
                        (value (markedParse heading md)))
                ++ pageTail)])%list).
Proof.
  unfold onRead, generateTOC, bind, tell, ret.
  destruct (markedParse heading md) as [html t]. reflexivity.
Qed.

(** C7: when no line of the source is a heading line [generateTOC] returns
    the empty string and the page content is the fallback notice, the
    fixed text below, followed by the converted body; when some line is a
    heading line [generateTOC] returns the navigation block and the page
    content is that block followed by the converted body, with no notice.
    Which sources have a heading line is said on the source text itself.
    The two cases at a source with two headings and at one with none. *)
Theorem notice_or_navigation
    (markedParse : (Token -> Eff string) -> string -> Eff string)
    (pageHead pageTail md : string) :
  let body := removeAll "[object Object]" (value (markedParse heading md)) in
  let tocHtml := value (generateTOC md) in
  let notice :=
    "<p><em>Note: No headings found for navigation. Please ensure your Markdown file uses proper header syntax (e.g., "
    ++ Str.dq ++ "## Creational Design Patterns" ++ Str.dq
    ++ ").</em></p>" in
  (~ HasHeadingLine md ->
   tocHtml = ""
   /\ onRead markedParse pageHead pageTail (ReadOk md)
      = (tt,
         (ConsoleLogItems "Generated TOC Items:" []
          :: MarkedParse md
          :: trace (markedParse heading md)
          ++ [Send (pageHead ++ (notice ++ body) ++ pageTail)])%list))
  /\ (HasHeadingLine md ->
      tocItems md <> []
      /\ tocHtml
         = navOpen ++ Str.join (List.map tocEntry (tocItems md)) ++ navClose
      /\ onRead markedParse pageHead pageTail (ReadOk md)
         = (tt,
            (ConsoleLogItems "Generated TOC Items:" (tocItems md)
             :: MarkedParse md
             :: trace (markedParse heading md)
             ++ [Send (pageHead ++ (tocHtml ++ body) ++ pageTail)])%list))
  /\ value (generateTOC ("# Title" ++ nl ++ "text" ++ nl ++ "## Sub"))
     = "<nav id=" ++ Str.dq ++ "toc" ++ Str.dq ++ " style=" ++ Str.dq
       ++ "margin-bottom:20px; padding:10px; border:1px solid #ddd; background:#f0f0f0; border-radius:4px;"
       ++ Str.dq ++ "><h2>Table of Contents</h2>"
       ++ "<div style=" ++ Str.dq ++ "margin-left: 0px;" ++ Str.dq
       ++ "><a href=" ++ Str.dq ++ "#title" ++ Str.dq ++ ">Title</a></div>"
       ++ "<div style=" ++ Str.dq ++ "margin-left: 20px;" ++ Str.dq
       ++ "><a href=" ++ Str.dq ++ "#sub" ++ Str.dq ++ ">Sub</a></div>"
       ++ "</nav>"
  /\ value (generateTOC ("No headings here." ++ nl ++ "#hashtag")) = "".
Proof.
  intros body tocHtml notice. subst tocHtml. rewrite generateTOC_value.
  split; [|split; [|split; vm_compute; reflexivity]].
  - intros Hno.
    assert (Ex : existsb isHeadingLine (Str.splitLines md) = false).
    { destruct (existsb isHeadingLine (Str.splitLines md)) eqn:E;
        [|reflexivity].
      exfalso. apply Hno, hasHeadingLine_iff, E. }
    rewrite onRead_ok, (tocItems_none md Ex). split; reflexivity.
  - intros Hsome. apply hasHeadingLine_iff in Hsome.
    rewrite onRead_ok.
    destruct (tocItems_some md Hsome) as (i & rest & ->).
    rewrite tocHtmlOf_cons. repeat split. discriminate.
Qed.

Lemma notice_or_navigation_witness :
  trace (onRead (fun _ src => ret ("<p>" ++ src ++ "</p>")) "<main>" "</main>"
           (ReadOk "No headings here."))
  = [ConsoleLogItems "Generated TOC Items:" [];
     MarkedParse "No headings here.";
     Send ("<main>"
           ++ "<p><em>Note: No headings found for navigation. Please ensure your Markdown file uses proper header syntax (e.g., "
           ++ Str.dq ++ "## Creational Design Patterns" ++ Str.dq
           ++ ").</em></p>"
           ++ "<p>No headings here.</p>" ++ "</main>")]
  /\ trace (onRead (fun _ src => ret ("<p>" ++ src ++ "</p>")) "<main>" "</main>"
              (ReadOk "## Usage"))
     = [ConsoleLogItems "Generated TOC Items:" [mkHeading 2 "Usage" "usage"];
        MarkedParse "## Usage";
        Send ("<main>" ++ navOpen
              ++ "<div style=" ++ Str.dq ++ "margin-left: 20px;" ++ Str.dq
              ++ "><a href=" ++ Str.dq ++ "#usage" ++ Str.dq
              ++ ">Usage</a></div>" ++ navClose
              ++ "<p>## Usage</p>" ++ "</main>")].
Proof.
  split.
  - destruct (proj1 (notice_or_navigation
                       (fun _ src => ret ("<p>" ++ src ++ "</p>"))
                       "<main>" "</main>" "No headings here.")) as [_ H].
    + intros Hh. apply hasHeadingLine_iff in Hh. vm_compute in Hh.
      discriminate Hh.
    + rewrite H. vm_compute. reflexivity.
  - destruct (proj1 (proj2 (notice_or_navigation
                              (fun _ src => ret ("<p>" ++ src ++ "</p>"))
                              "<main>" "</main>" "## Usage")))
      as (_ & _ & H).
    + apply hasHeadingLine_iff. vm_compute. reflexivity.
    + rewrite H. vm_compute. reflexivity.
Defined.

(** C8: when the read fails the request ends after one read with status
    500 and the fixed message; the trace has no TOC log and no call of the
    conversion engine, and the body sent owes nothing to a document. *)
Theorem read_failure_response
    (markedParse : (Token -> Eff string) -> string -> Eff string)
    (pageHead pageTail : string) (readFile : string -> readResult)
    (err : string) :
  readFile "README.md" = ReadFailed err ->
  getRoot markedParse pageHead pageTail readFile
  = (tt, [ReadFile "README.md";
          ConsoleError "Error reading Markdown file:" err;
          Status 500;
          Send "Internal Server Error: Could not read Markdown file."]).
Proof.
  intros H. unfold getRoot, onRead. rewrite H. reflexivity.
Qed.

Lemma read_failure_response_witness :
  trace (getRoot (fun hook src => hook (mkToken 1 src)) "<body>" "</body>"
           (fun _ => ReadFailed "ENOENT"))
  = [ReadFile "README.md";
     ConsoleError "Error reading Markdown file:" "ENOENT";
     Status 500;
     Send "Internal Server Error: Could not read Markdown file."].
Proof.
  rewrite (read_failure_response (fun hook src => hook (mkToken 1 src))
             "<body>" "</body>" (fun _ => ReadFailed "ENOENT") "ENOENT");
    reflexivity.
Defined.

(** C10: a line of 1 to 6 [#] followed by whitespace and nothing else
    gives a record with empty title and empty slug, and its TOC entry is a
    link with no text whose target is the bare fragment [#]. *)
Theorem blank_heading_entry (n : nat) (ws pre post : string) :
  (1 <= n <= 6)%nat ->
  ws <> "" ->
  Str.forallb Char.isSpace ws = true ->
  isLine ws = true ->
  let line := Str.replicate n "#" ++ ws in
  let item := mkHeading (Z.of_nat n) "" "" in
  headingRecord line = Some item
  /\ tocItems (pre ++ nl ++ line ++ nl ++ post)
     = (tocItems pre ++ item :: tocItems post)%list
  /\ tocEntry item
     = "<div style=" ++ Str.dq ++ "margin-left: "
       ++ Str.ofZ ((Z.of_nat n - 1) * 20) ++ "px;" ++ Str.dq
       ++ "><a href=" ++ Str.dq ++ "#" ++ Str.dq ++ "></a></div>"
  /\ value (generateTOC line) = navOpen ++ tocEntry item ++ navClose.
Proof.
  intros Hn Hne Hws Hline line item.
  assert (Hrec : headingRecord line = Some item)
    by now apply headingRecord_blank.
  assert (Hl : isLine line = true).
  { unfold isLine, line. rewrite forallb_append. apply andb_true_iff.
    split; [|exact Hline]. clear. induction n; simpl; auto. }
  assert (Hitems : tocItems line = [item]).
  { rewrite (tocItems_line _ Hl). unfold itemOf. now rewrite Hrec. }
  split; [exact Hrec|]. split; [|split].
  - now rewrite !tocItems_append, Hitems.
  - reflexivity.
  - rewrite generateTOC_value, Hitems, tocHtmlOf_cons.
    unfold Str.join. cbn [List.map fold_right].
    now rewrite append_nil_r.
Qed.

Lemma blank_heading_entry_witness :
  value (generateTOC "###  ")
  = navOpen ++ "<div style=" ++ Str.dq ++ "margin-left: 40px;" ++ Str.dq
    ++ "><a href=" ++ Str.dq ++ "#" ++ Str.dq ++ "></a></div>" ++ navClose.
Proof.
  destruct (blank_heading_entry 3 "  " "" "") as (_ & _ & _ & H);
    [lia | discriminate | reflexivity | reflexivity |].
  exact H.
Defined.

(** * Further properties *)

(** ** The slug as words joined by hyphens *)

Lemma splitOn_nonempty sep s : splitOn sep s <> [].
Proof.
  destruct s as [|c s]; simpl; [discriminate|].
  destruct (sep c); [discriminate|].
  destruct (splitOn sep s); discriminate.
Qed.

Lemma concat_cons_char c q l :
  String.concat "-" (String c q :: l) = String c (String.concat "-" (q :: l)).
Proof. destruct l; reflexivity. Qed.

Lemma concat_nonEmpty w ws :
  nonEmpty w = true -> String.concat "-" (w :: ws) <> "".
Proof.
  destruct w as [|c w]; [discriminate|]. intros _.
  rewrite concat_cons_char. discriminate.
Qed.

Lemma joined_empty l :
  String.concat "-" (filter nonEmpty l) = "" -> filter nonEmpty l = [].
Proof.
  induction l as [|w l IH]; simpl; [reflexivity|].
  destruct (nonEmpty w) eqn:E; [|exact IH].
  intros H. now apply concat_nonEmpty in H.
Qed.

Lemma collapse_true_sep c r :
  isSep c = true -> collapseRunsFrom true (String c r) = collapseRunsFrom true r.
Proof.
  unfold isSep. intros H. apply negb_true_iff in H. simpl. now rewrite H.
Qed.

Lemma dropTrailing_joined t :
  forall b,
    b = true \/ startsSep t = false ->
    dropTrailingHyphen (collapseRunsFrom b t)
    = String.concat "-" (wordRuns t).
Proof.
  unfold wordRuns.
  induction t as [|c r IH]; intros b Hb; [reflexivity|].
  cbn [collapseRunsFrom splitOn]. unfold isSep at 1.
  destruct (Char.isSlugWord c) eqn:Ec; cbn [negb].
  - (* a word character opens or extends a word *)
    cbn [dropTrailingHyphen]. rewrite (slugWord_not_hyphen c Ec). cbn [andb].
    destruct r as [|e r'].
    + reflexivity.
    + destruct (isSep e) eqn:Ee.
      * (* the word ends here *)
        pose proof (IH true (or_introl eq_refl)) as IHt.
        rewrite (collapse_true_sep e r' Ee) in IHt.
        cbn [splitOn] in IHt |- *. rewrite Ee in IHt |- *.
        cbn [filter nonEmpty Str.isEmpty negb] in IHt |- *.
        unfold isSep in Ee. apply negb_true_iff in Ee.
        cbn [collapseRunsFrom]. rewrite Ee.
        set (x := collapseRunsFrom true r') in *.
        cbn [dropTrailingHyphen].
        change (Char.isHyphen "-") with true. cbn [andb].
        destruct x as [|d x'] eqn:Ex.
        { cbn [Str.isEmpty]. simpl in IHt. symmetry in IHt.
          apply joined_empty in IHt. now rewrite IHt. }
        { cbn [Str.isEmpty]. rewrite IHt.
          destruct (filter nonEmpty (splitOn isSep r')) as [|w ws] eqn:Ef.
          - exfalso. change (String.concat "-" []) with "" in IHt.
            apply dropTrailing_empty in IHt as [IHt|IHt]; [discriminate|].
            pose proof (proj2 (collapse_hyphens r' true) eq_refl) as Hs.
            fold x in Hs. rewrite Ex, IHt in Hs. discriminate.
          - reflexivity. }
      * (* the word goes on *)
        assert (Hs : false = true \/ startsSep (String e r') = false)
          by (right; exact Ee).
        rewrite (IH false Hs).
        pose proof (splitOn_nonempty isSep (String e r')) as Hne.
        cbn [splitOn] in *. rewrite Ee in *.
        destruct (splitOn isSep r') as [|q qs].
        { reflexivity. }
        { cbn [filter nonEmpty Str.isEmpty negb]. symmetry. apply concat_cons_char. }
  - (* a separator: only reachable inside a run *)
    destruct Hb as [-> | Hb].
    + rewrite (IH true (or_introl eq_refl)). reflexivity.
    + simpl in Hb. unfold isSep in Hb. rewrite Ec in Hb. discriminate.
Qed.

Lemma slugSpec_joined s :
  slugSpec s = String.concat "-" (wordRuns (Str.toLowerCase s)).
Proof.
  unfold slugSpec, collapseRuns.
  destruct (Str.toLowerCase s) as [|c r] eqn:E; [reflexivity|].
  destruct (isSep c) eqn:Ec.
  - assert (Ec' : Char.isSlugWord c = false)
      by (unfold isSep in Ec; now apply negb_true_iff in Ec).
    cbn [collapseRunsFrom]. rewrite Ec'. cbn [dropLeadingHyphen].
    change (Char.isHyphen "-") with true. cbv iota.
    rewrite (dropTrailing_joined r true (or_introl eq_refl)).
    unfold wordRuns. cbn [splitOn]. now rewrite Ec.
  - assert (Ec' : Char.isSlugWord c = true)
      by (unfold isSep in Ec; now apply negb_false_iff in Ec).
    assert (Hd : dropLeadingHyphen (collapseRunsFrom false (String c r))
                 = collapseRunsFrom false (String c r)).
    { cbn [collapseRunsFrom]. rewrite Ec'. cbn [dropLeadingHyphen].
      now rewrite (slugWord_not_hyphen c Ec'). }
    rewrite Hd. apply dropTrailing_joined. right. exact Ec.
Qed.

(** X1: the slug is the list of maximal runs of [[a-z0-9_]] of the
    lowercased input, joined by single hyphens. *)
Theorem slug_is_joined_words (s : string) :
  headingSlug s = String.concat "-" (wordRuns (Str.toLowerCase s))
  /\ tocSlug s = String.concat "-" (wordRuns (Str.toLowerCase s)).
Proof.
  change (tocSlug s) with (headingSlug s). rewrite headingSlug_spec.
  split; apply slugSpec_joined.
Qed.

(** ** Reading the words back from a slug *)

Lemma splitOn_pieces s :
  Forall (fun p => Str.forallb Char.isSlugWord p = true) (splitOn isSep s).
Proof.
  induction s as [|c s IH]; simpl; [repeat constructor|].
  destruct (isSep c) eqn:Ec; [constructor; [reflexivity|exact IH]|].
  pose proof (splitOn_nonempty isSep s) as Hne.
  destruct (splitOn isSep s) as [|p ps]; [contradiction|].
  inversion IH; subst. constructor; [|assumption].
  simpl. unfold isSep in Ec. apply negb_false_iff in Ec. now rewrite Ec.
Qed.

Lemma wordRuns_runs s : Forall isWordRun (wordRuns s).
Proof.
  unfold wordRuns. pose proof (splitOn_pieces s) as H.
  induction H as [|p ps Hp _ IH]; simpl; [constructor|].
  destruct (nonEmpty p) eqn:E; [|exact IH].
  constructor; [split; assumption|exact IH].
Qed.

Lemma splitOn_word x :
  Str.forallb Char.isSlugWord x = true -> splitOn isSep x = [x].
Proof.
  induction x as [|c x IH]; simpl; intros H; [reflexivity|].
  apply andb_true_iff in H as [Hc Hx].
  unfold isSep at 1. rewrite Hc. simpl. now rewrite (IH Hx).
Qed.

Lemma splitOn_word_sep x d t :
  Str.forallb Char.isSlugWord x = true -> isSep d = true ->
  splitOn isSep (x ++ String d t) = x :: splitOn isSep t.
Proof.
  intros Hx Hd. induction x as [|c x IH]; simpl.
  - now rewrite Hd.
  - simpl in Hx. apply andb_true_iff in Hx as [Hc Hx'].
    unfold isSep at 1. rewrite Hc. simpl. now rewrite (IH Hx').
Qed.

Lemma wordRuns_joined l :
  Forall isWordRun l -> wordRuns (String.concat "-" l) = l.
Proof.
  unfold wordRuns.
  induction 1 as [|x l [Hne Hx] Hl IH]; [reflexivity|].
  destruct l as [|y l].
  - simpl. rewrite (splitOn_word x Hx). simpl. now rewrite Hne.
  - change (String.concat "-" (x :: y :: l))
      with (x ++ String "-" (String.concat "-" (y :: l))).
    rewrite (splitOn_word_sep x "-" _ Hx eq_refl).
    cbn [filter]. now rewrite Hne, IH.
Qed.

Lemma wordRuns_slugSpec s :
  wordRuns (slugSpec s) = wordRuns (Str.toLowerCase s).
Proof. rewrite slugSpec_joined. apply wordRuns_joined, wordRuns_runs. Qed.

(** X2: splitting a slug at its hyphens gives back the word runs of the
    lowercased title, so two titles receive the same slug exactly when
    their lowercased word runs are the same. *)
Theorem slug_collision_iff (s1 s2 : string) :
  wordRuns (headingSlug s1) = wordRuns (Str.toLowerCase s1)
  /\ (headingSlug s1 = headingSlug s2
      <-> wordRuns (Str.toLowerCase s1) = wordRuns (Str.toLowerCase s2)).
Proof.
  rewrite !headingSlug_spec. split; [apply wordRuns_slugSpec|]. split.
  - intros H. rewrite <- !wordRuns_slugSpec. now rewrite H.
  - intros H. rewrite !slugSpec_joined. now rewrite H.
Qed.

(** ** Slugs are fixed points *)

Lemma toLower_slugChar c : isSlugChar c = true -> Char.toLower c = c.
Proof. by_bits c. Qed.

Lemma toLowerCase_slugChars g :
  Str.forallb isSlugChar g = true -> Str.toLowerCase g = g.
Proof.
  unfold Str.toLowerCase.
  induction g as [|c g IH]; simpl; intros H; [reflexivity|].
  apply andb_true_iff in H as [Hc Hg].
  now rewrite (toLower_slugChar c Hc), (IH Hg).
Qed.

Lemma slugSpec_idempotent s : slugSpec (slugSpec s) = slugSpec s.
Proof.
  rewrite (slugSpec_joined (slugSpec s)).
  rewrite (toLowerCase_slugChars _ (proj1 (slugSpec_shape s))).
  rewrite wordRuns_slugSpec. symmetry. apply slugSpec_joined.
Qed.

(** X3: slugging a slug changes nothing, in either chain and across
    them. *)
Theorem slug_idempotent (s : string) :
  headingSlug (headingSlug s) = headingSlug s
  /\ tocSlug (tocSlug s) = tocSlug s
  /\ headingSlug (tocSlug s) = tocSlug s.
Proof.
  change (tocSlug (tocSlug s)) with (headingSlug (headingSlug s)).
  change (tocSlug s) with (headingSlug s).
  rewrite !headingSlug_spec.
  repeat split; apply slugSpec_idempotent.
Qed.

(** ** Characters around a title that do not count *)

Lemma toLowerCase_append a b :
  Str.toLowerCase (a ++ b) = Str.toLowerCase a ++ Str.toLowerCase b.
Proof.
  unfold Str.toLowerCase. induction a as [|c a IH]; simpl; congruence.
Qed.

Lemma toLower_nonWord_sep c :
  Char.isNonWord c = true -> isSep (Char.toLower c) = true.
Proof. by_bits c. Qed.

Lemma toLowerCase_nonWord_sep a :
  Str.forallb Char.isNonWord a = true ->
  Str.forallb isSep (Str.toLowerCase a) = true.
Proof.
  unfold Str.toLowerCase.
  induction a as [|c a IH]; simpl; intros H; [reflexivity|].
  apply andb_true_iff in H as [Hc Ha].
  now rewrite (toLower_nonWord_sep c Hc), (IH Ha).
Qed.

Lemma wordRuns_sep_prefix a t :
  Str.forallb isSep a = true -> wordRuns (a ++ t) = wordRuns t.
Proof.
  unfold wordRuns.
  induction a as [|c a IH]; simpl; intros H; [reflexivity|].
  apply andb_true_iff in H as [Hc Ha]. rewrite Hc. simpl. now apply IH.
Qed.

Lemma splitOn_sep_suffix t b :
  Str.forallb isSep b = true ->
  splitOn isSep (t ++ b)
  = (splitOn isSep t ++ repeat "" (String.length b))%list.
Proof.
  intros Hb. induction t as [|c t IH].
  - simpl. induction b as [|d b IHb]; [reflexivity|].
    simpl in Hb |- *. apply andb_true_iff in Hb as [Hd Hb'].
    rewrite Hd. now rewrite (IHb Hb').
  - cbn [append splitOn]. rewrite IH.
    destruct (isSep c); [reflexivity|].
    pose proof (splitOn_nonempty isSep t) as Hne.
    destruct (splitOn isSep t); [contradiction|reflexivity].
Qed.

Lemma filter_nonEmpty_repeat n : filter nonEmpty (repeat "" n) = [].
Proof. induction n; simpl; auto. Qed.

Lemma wordRuns_sep_suffix t b :
  Str.forallb isSep b = true -> wordRuns (t ++ b) = wordRuns t.
Proof.
  intros Hb. unfold wordRuns.
  now rewrite (splitOn_sep_suffix t b Hb), filter_app, filter_nonEmpty_repeat,
    app_nil_r.
Qed.

Lemma slugSpec_padding a s b :
  Str.forallb Char.isNonWord a = true ->
  Str.forallb Char.isNonWord b = true ->
  slugSpec (a ++ s ++ b) = slugSpec s.
Proof.
  intros Ha Hb. rewrite !slugSpec_joined, !toLowerCase_append.
  rewrite wordRuns_sep_prefix by now apply toLowerCase_nonWord_sep.
  now rewrite wordRuns_sep_suffix by now apply toLowerCase_nonWord_sep.
Qed.

(** X4: characters other than letters, digits and underscore before and
    after a title do not change its slug: closing hashes, punctuation and
    whitespace around the text are invisible in the anchor. *)
Theorem slug_ignores_padding (a s b : string) :
  Str.forallb Char.isNonWord a = true ->
  Str.forallb Char.isNonWord b = true ->
  headingSlug (a ++ s ++ b) = headingSlug s
  /\ tocSlug (a ++ s ++ b) = tocSlug s.
Proof.
  intros Ha Hb. change tocSlug with headingSlug.
  rewrite !headingSlug_spec. split; now apply slugSpec_padding.
Qed.

Lemma slug_ignores_padding_witness :
  tocSlug ("* " ++ "Factory Method" ++ " ##") = "factory-method".
Proof.
  rewrite (proj2 (slug_ignores_padding "* " "Factory Method" " ##"
                    eq_refl eq_refl)).
  vm_compute. reflexivity.
Defined.

(** ** Trimming *)

Lemma rev_cons c s : Str.rev (String c s) = Str.rev s ++ String c "".
Proof. unfold Str.rev. simpl. apply rev_onto_append. Qed.

Lemma rev_involutive s : Str.rev (Str.rev s) = s.
Proof.
  induction s as [|c s IH]; [reflexivity|].
  rewrite rev_cons, rev_append, IH. reflexivity.
Qed.

Lemma trimEnd_decompose t :
  exists w, t = Str.trimEnd t ++ w /\ Str.forallb Char.isSpace w = true.
Proof.
  exists (Str.rev (Str.takeWhile Char.isSpace (Str.rev t))). split.
  - unfold Str.trimEnd. rewrite <- rev_append, takeWhile_dropWhile.
    symmetry. apply rev_involutive.
  - rewrite forallb_rev. apply takeWhile_all.
Qed.

Lemma trim_decompose s :
  exists w1 w2,
    s = w1 ++ Str.trim s ++ w2
    /\ Str.forallb Char.isSpace w1 = true
    /\ Str.forallb Char.isSpace w2 = true.
Proof.
  destruct (trimEnd_decompose (Str.trimStart s)) as (w2 & E & H2).
  exists (Str.takeWhile Char.isSpace s), w2. repeat split.
  - unfold Str.trim. rewrite <- E. unfold Str.trimStart.
    symmetry. apply takeWhile_dropWhile.
  - apply takeWhile_all.
  - exact H2.
Qed.

Lemma space_nonWord c : Char.isSpace c = true -> Char.isNonWord c = true.
Proof. by_bits c. Qed.

Lemma spaces_nonWord w :
  Str.forallb Char.isSpace w = true -> Str.forallb Char.isNonWord w = true.
Proof.
  induction w as [|c w IH]; simpl; intros H; [reflexivity|].
  apply andb_true_iff in H as [Hc Hw].
  now rewrite (space_nonWord c Hc), (IH Hw).
Qed.

(** X5: the [trim] that [generateTOC] applies to the captured title has no
    effect on the slug: the slug of the trimmed text is the slug of the
    text. *)
Theorem slug_of_trimmed (s : string) :
  tocSlug (Str.trim s) = tocSlug s
  /\ headingSlug (Str.trim s) = headingSlug s.
Proof.
  change tocSlug with headingSlug.
  destruct (trim_decompose s) as (w1 & w2 & E & H1 & H2).
  assert (H : headingSlug (Str.trim s) = headingSlug s).
  { rewrite E at 2. rewrite !headingSlug_spec. symmetry.
    apply slugSpec_padding; now apply spaces_nonWord. }
  now split.
Qed.

Lemma dropWhile_idempotent p s :
  Str.dropWhile p (Str.dropWhile p s) = Str.dropWhile p s.
Proof.
  pose proof (dropWhile_head p s) as H.
  destruct (Str.dropWhile p s) as [|c r]; [reflexivity|].
  simpl. now rewrite H.
Qed.

Lemma trimEnd_idempotent t : Str.trimEnd (Str.trimEnd t) = Str.trimEnd t.
Proof.
  unfold Str.trimEnd. now rewrite rev_involutive, dropWhile_idempotent.
Qed.

Lemma trimStart_fixed t : startsWithSpace t = false -> Str.trimStart t = t.
Proof.
  destruct t as [|c r]; [reflexivity|]. simpl. intros H.
  unfold Str.trimStart. simpl. now rewrite H.
Qed.

Lemma startsWithSpace_trimStart s : startsWithSpace (Str.trimStart s) = false.
Proof.
  unfold Str.trimStart. pose proof (dropWhile_head Char.isSpace s) as H.
  destruct (Str.dropWhile Char.isSpace s); [reflexivity|exact H].
Qed.

Lemma startsWithSpace_trimEnd t :
  startsWithSpace t = false -> startsWithSpace (Str.trimEnd t) = false.
Proof.
  intros H. destruct (trimEnd_decompose t) as (w & E & _).
  destruct (Str.trimEnd t) as [|c u]; [reflexivity|].
  rewrite E in H. exact H.
Qed.

Lemma trim_idempotent s : Str.trim (Str.trim s) = Str.trim s.
Proof.
  unfold Str.trim.
  rewrite (trimStart_fixed (Str.trimEnd (Str.trimStart s))).
  - apply trimEnd_idempotent.
  - apply startsWithSpace_trimEnd, startsWithSpace_trimStart.
Qed.

Lemma forallb_dropWhile p q s :
  Str.forallb p s = true -> Str.forallb p (Str.dropWhile q s) = true.
Proof.
  induction s as [|c s IH]; simpl; intros H; [reflexivity|].
  destruct (q c); [|exact H].
  apply andb_true_iff in H as [_ Hs]. now apply IH.
Qed.

Lemma forallb_trim p s :
  Str.forallb p s = true -> Str.forallb p (Str.trim s) = true.
Proof.
  intros H. unfold Str.trim, Str.trimEnd, Str.trimStart.
  rewrite forallb_rev. apply forallb_dropWhile.
  rewrite forallb_rev. now apply forallb_dropWhile.
Qed.

Lemma isHeadingLine_level line :
  isHeadingLine line = true ->
  (1 <= Z.of_nat (leadingHashes line) <= 6)%Z /\ startsWithHash line = true.
Proof.
  unfold isHeadingLine, leadingHashes. intros H.
  apply andb_true_iff in H as [H _]. apply andb_true_iff in H as [H1 H6].
  apply Nat.leb_le in H1, H6. split; [lia|].
  destruct line as [|c r]; simpl in *; [lia|].
  destruct (Char.isHash c); [reflexivity|simpl in H1; lia].
Qed.

(** ** What every record of the table of contents satisfies *)

(** X6: each record [generateTOC] collects comes from a line of the
    source that starts with [#]; its level is between 1 and 6, its title is
    already trimmed and holds no line terminator, and its slug is the slug
    of its title. *)
Theorem tocItems_invariant (md : string) (item : HeadingRecord) :
  In item (tocItems md) ->
  exists line,
    In line (Str.splitLines md)
    /\ headingRecord line = Some item
    /\ startsWithHash line = true
    /\ (1 <= level item <= 6)%Z
    /\ Str.trim (title item) = title item
    /\ Str.forallb Char.isDot (title item) = true
    /\ slug item = tocSlug (title item).
Proof.
  rewrite tocItems_flat_map. intros H.
  apply in_flat_map in H as (line & Hline & Hitem).
  exists line. split; [exact Hline|].
  unfold itemOf in Hitem. rewrite headingRecord_spec in *.
  destruct (isHeadingLine line) eqn:E; [|contradiction].
  destruct Hitem as [<-|[]].
  destruct (isHeadingLine_level line E) as [Hl Hh].
  repeat split; try assumption; try apply Hl.
  - apply trim_idempotent.
  - apply forallb_trim, takeWhile_all.
Qed.

Lemma tocItems_invariant_witness :
  exists line,
    In line (Str.splitLines ("Intro" ++ nl ++ "### Usage  " ++ cr))
    /\ headingRecord line = Some (mkHeading 3 "Usage" "usage")
    /\ startsWithHash line = true
    /\ (1 <= 3 <= 6)%Z
    /\ Str.trim "Usage" = "Usage"
    /\ Str.forallb Char.isDot "Usage" = true
    /\ "usage" = tocSlug "Usage".
Proof.
  apply (tocItems_invariant ("Intro" ++ nl ++ "### Usage  " ++ cr)
           (mkHeading 3 "Usage" "usage")).
  vm_compute. left. reflexivity.
Defined.

(** ** Documents put together *)

Lemma length_itemOf line : (List.length (itemOf line) <= 1)%nat.
Proof. unfold itemOf. destruct (headingRecord line); simpl; lia. Qed.

Lemma length_flat_map_itemOf lines :
  (List.length (flat_map itemOf lines) <= List.length lines)%nat.
Proof.
  induction lines as [|l ls IH]; simpl; [lia|].
  rewrite length_app. pose proof (length_itemOf l). lia.
Qed.

(** X7: the records of two documents joined by a newline are the records
    of the first followed by the records of the second, and a document
    never yields more records than it has lines. *)
Theorem tocItems_concat (a b : string) :
  tocItems (a ++ nl ++ b) = (tocItems a ++ tocItems b)%list
  /\ (List.length (tocItems a) <= List.length (Str.splitLines a))%nat
  /\ value (generateTOC (a ++ nl ++ b)) = tocHtmlOf (tocItems a ++ tocItems b).
Proof.
  split; [apply tocItems_append|]. split.
  - rewrite tocItems_flat_map. apply length_flat_map_itemOf.
  - now rewrite generateTOC_value, tocItems_append.
Qed.

(** ** Splitting into lines and joining back *)

Lemma newline_eq c : Char.isNewline c = true -> c = ascii_of_N 10.
Proof. by_bits c. Qed.

Lemma concat_nl_cons_char c q l :
  String.concat nl (String c q :: l) = String c (String.concat nl (q :: l)).
Proof. destruct l; reflexivity. Qed.

(** X8: [split] on newlines loses nothing: joining the lines with newlines
    gives the source back, no line holds a newline, and there is one line
    more than there are newlines. *)
Theorem splitLines_join (s : string) :
  String.concat nl (Str.splitLines s) = s
  /\ Forall (fun line => isLine line = true) (Str.splitLines s)
  /\ List.length (Str.splitLines s) = S (newlines s).
Proof.
  induction s as [|c s (IHj & IHl & IHn)]; [repeat split; repeat constructor|].
  pose proof (splitLines_nonempty s) as Hne.
  cbn [Str.splitLines newlines].
  destruct (Char.isNewline c) eqn:Ec.
  - destruct (Str.splitLines s) as [|p ps] eqn:Es; [contradiction|].
    repeat split.
    + change (String.concat nl ("" :: p :: ps))
        with (String (ascii_of_N 10) (String.concat nl (p :: ps))).
      now rewrite IHj, (newline_eq c Ec).
    + constructor; [reflexivity|exact IHl].
    + simpl in *. lia.
  - destruct (Str.splitLines s) as [|p ps] eqn:Es; [contradiction|].
    repeat split.
    + now rewrite concat_nl_cons_char, IHj.
    + inversion IHl; subst. constructor; [|assumption].
      unfold isLine in *. simpl. now rewrite Ec.
    + exact IHn.
Qed.

(** ** The cleanup of the converted body *)

Lemma prefix_true pat s :
  String.prefix pat s = true -> exists b, s = pat ++ b.
Proof.
  revert s. induction pat as [|p pat IH]; intros s H.
  - exists s. reflexivity.
  - destruct s as [|c s]; [discriminate|]. simpl in H.
    destruct (ascii_dec p c) as [->|]; [|discriminate].
    destruct (IH s H) as (b & ->). now exists b.
Qed.

Lemma prefix_self pat b : String.prefix pat (pat ++ b) = true.
Proof.
  induction pat as [|p pat IH]; simpl; [now destruct b|].
  destruct (ascii_dec p p); [exact IH|contradiction].
Qed.

Lemma prefix_other p0 prest c r :
  Ascii.eqb c p0 = false -> String.prefix (String p0 prest) (String c r) = false.
Proof.
  intros H. simpl. destruct (ascii_dec p0 c) as [->|]; [|reflexivity].
  now rewrite Ascii.eqb_refl in H.
Qed.

Lemma removeAllFrom_skip pat x t :
  removeAllFrom pat (String.length x) (x ++ t) = removeAllFrom pat 0 t.
Proof.
  induction x as [|c x IH]; [reflexivity|]. simpl. exact IH.
Qed.

Lemma removeAll_leading p0 prest b :
  removeAll (String p0 prest) (String p0 prest ++ b)
  = removeAll (String p0 prest) b.
Proof.
  unfold removeAll.
  change (String p0 prest ++ b) with (String p0 (prest ++ b)).
  cbn [removeAllFrom Str.isEmpty].
  change (String p0 (prest ++ b)) with (String p0 prest ++ b).
  rewrite prefix_self.
  replace (String.length (String p0 prest) - 1)%nat with (String.length prest)
    by (simpl; lia).
  apply removeAllFrom_skip.
Qed.

Lemma removeAll_copy p0 prest a t :
  noChar p0 a = true ->
  removeAll (String p0 prest) (a ++ t) = a ++ removeAll (String p0 prest) t.
Proof.
  unfold removeAll, noChar.
  induction a as [|c a IH]; intros H; [reflexivity|].
  cbn [Str.forallb] in H. apply andb_true_iff in H as [Hc Ha].
  apply negb_true_iff in Hc.
  change (String c a ++ t) with (String c (a ++ t)).
  cbn [removeAllFrom Str.isEmpty]. rewrite (prefix_other _ _ _ _ Hc).
  now rewrite (IH Ha).
Qed.

(** X9: text without an opening square bracket passes through the cleanup
    unchanged, and an occurrence of [[object Object]] after such text is
    cut out; but the cleanup is a single pass, so the result can hold the
    pattern again. *)
Theorem cleanup_cuts_occurrence (a b : string) :
  noChar "[" a = true ->
  removeAll "[object Object]" a = a
  /\ removeAll "[object Object]" (a ++ "[object Object]" ++ b)
     = a ++ removeAll "[object Object]" b
  /\ removeAll "[object Object]" ("[object " ++ "[object Object]" ++ "Object]")
     = "[object Object]".
Proof.
  intros Ha. repeat split.
  - rewrite <- (append_nil_r a) at 1.
    rewrite (removeAll_copy "[" "object Object]" a "" Ha).
    apply append_nil_r.
  - rewrite (removeAll_copy "[" "object Object]" a _ Ha).
    now rewrite removeAll_leading.
Qed.

Lemma cleanup_cuts_occurrence_witness :
  removeAll "[object Object]" ("<li>" ++ "[object Object]" ++ "</li>")
  = "<li></li>".
Proof.
  rewrite (proj1 (proj2 (cleanup_cuts_occurrence "<li>" "</li>" eq_refl))).
  reflexivity.
Defined.

(** X10: a body in which [[object Object]] does not occur is left as it
    is by the cleanup. *)
Theorem cleanup_keeps_clean_body (s : string) :
  (forall a b, s <> a ++ "[object Object]" ++ b) ->
  removeAll "[object Object]" s = s.
Proof.
  unfold removeAll. induction s as [|c s IH]; intros H; [reflexivity|].
  cbn [removeAllFrom Str.isEmpty].
  destruct (String.prefix "[object Object]" (String c s)) eqn:E.
  - apply prefix_true in E as (b & E). exfalso. exact (H "" b E).
  - rewrite IH; [reflexivity|].
    intros a b ->. exact (H (String c a) b eq_refl).
Qed.

Lemma cleanup_keeps_clean_body_witness :
  removeAll "[object Object]" "[obj]" = "[obj]".
Proof.
  apply cleanup_keeps_clean_body.
  intros a b H.
  assert (L : String.length "[obj]"
              = String.length (a ++ "[object Object]" ++ b))
    by now rewrite <- H.
  rewrite !length_append in L. simpl in L. lia.
Defined.

(** ** One response per request *)

Lemma countEvents_app p t1 t2 :
  countEvents p (t1 ++ t2) = (countEvents p t1 + countEvents p t2)%nat.
Proof. unfold countEvents. now rewrite filter_app, length_app. Qed.

Lemma onRead_ok_trace markedParse pageHead pageTail md :
  exists body,
    trace (onRead markedParse pageHead pageTail (ReadOk md))
    = (ConsoleLogItems "Generated TOC Items:" (tocItems md)
       :: MarkedParse md
       :: trace (markedParse heading md) ++ [Send body])%list.
Proof.
  unfold onRead, generateTOC, bind, tell, ret, trace.
  destruct (markedParse heading md) as [html t]. simpl. eauto.
Qed.

(** X11: whatever the read gives, the handler reads the file once and
    sends exactly one response, provided the conversion engine run with the
    heading hook neither sends, reads nor sets a status; the status is set,
    to 500, only when the read failed. *)
Theorem one_response_per_request
    (markedParse : (Token -> Eff string) -> string -> Eff string)
    (pageHead pageTail : string) (readFile : string -> readResult) :
  (forall src,
      countEvents isSend (trace (markedParse heading src)) = 0%nat
      /\ countEvents isReadFile (trace (markedParse heading src)) = 0%nat
      /\ countEvents isStatus (trace (markedParse heading src)) = 0%nat) ->
  let t := trace (getRoot markedParse pageHead pageTail readFile) in
  countEvents isSend t = 1%nat
  /\ countEvents isReadFile t = 1%nat
  /\ countEvents isStatus t
     = match readFile "README.md" with
       | ReadFailed _ => 1%nat
       | ReadOk _ => 0%nat
       end
  /\ (In (Status 500) t <-> exists err, readFile "README.md" = ReadFailed err).
Proof.
  intros Hengine t. subst t. unfold getRoot.
  destruct (readFile "README.md") as [err|md] eqn:E.
  - repeat split; try reflexivity.
    + intros _. now exists err.
    + intros _. simpl. auto.
  - destruct (onRead_ok_trace markedParse pageHead pageTail md) as (body & Ht).
    destruct (Hengine md) as (Hs & Hr & Hst).
    assert (Et : trace (bind (tell (ReadFile "README.md"))
                          (fun _ => onRead markedParse pageHead pageTail (ReadOk md)))
                 = (ReadFile "README.md"
                    :: trace (onRead markedParse pageHead pageTail (ReadOk md)))%list).
    { unfold bind, tell, trace.
      destruct (onRead markedParse pageHead pageTail (ReadOk md)). reflexivity. }
    rewrite Et, Ht.
    change (ReadFile "README.md"
              :: ConsoleLogItems "Generated TOC Items:" (tocItems md)
              :: MarkedParse md
              :: trace (markedParse heading md) ++ [Send body])%list
      with ([ReadFile "README.md";
             ConsoleLogItems "Generated TOC Items:" (tocItems md);
             MarkedParse md]
              ++ trace (markedParse heading md) ++ [Send body])%list.
    rewrite !countEvents_app, Hs, Hr, Hst.
    repeat split; try reflexivity.
    + intros Hin. exfalso.
      apply in_app_or in Hin as [Hin|Hin].
      * simpl in Hin. now repeat destruct Hin as [Hin|Hin]; try discriminate.
      * apply in_app_or in Hin as [Hin|Hin].
        -- unfold countEvents in Hst.
           assert (Hf : In (Status 500) (filter isStatus (trace (markedParse heading md))))
             by (apply filter_In; split; [exact Hin|reflexivity]).
           destruct (filter isStatus (trace (markedParse heading md)));
             [contradiction|discriminate].
        -- simpl in Hin. destruct Hin as [Hin|[]]. discriminate.
    + intros (err & He). discriminate.
Qed.

Lemma one_response_per_request_witness :
  countEvents isSend
    (trace (getRoot (fun hook src => hook (mkToken 1 src)) "<body>" "</body>"
              (fun _ => ReadOk "# Title")))
  = 1%nat.
Proof.
  apply (one_response_per_request
           (fun hook src => hook (mkToken 1 src)) "<body>" "</body>"
           (fun _ => ReadOk "# Title")).
  intros src. repeat split; reflexivity.
Defined.

(** ** The earlier heading hook and the cleanup *)

Lemma slugChar_not_bracket c :
  isSlugChar c = true -> negb (Ascii.eqb c "[") = true.
Proof. by_bits c. Qed.

Lemma forallb_impl (p q : ascii -> bool) s :
  (forall c, p c = true -> q c = true) ->
  Str.forallb p s = true -> Str.forallb q s = true.
Proof.
  intros Hpq. induction s as [|c s IH]; simpl; intros H; [reflexivity|].
  apply andb_true_iff in H as [Hc Hs]. now rewrite (Hpq c Hc), (IH Hs).
Qed.

Lemma headingSlug_noBracket s : noChar "[" (headingSlug s) = true.
Proof.
  unfold noChar. rewrite headingSlug_spec.
  apply (forallb_impl isSlugChar); [exact slugChar_not_bracket|].
  apply slugSpec_shape.
Qed.

(** X12: when the earlier hook is handed a plain object as text and no
    slugger, the element it builds holds [[object Object]] as content, and
    the handler's cleanup leaves the heading empty: the anchor is still the
    slug of the raw text (or [object-object] when there is no raw text),
    the title is gone. *)
Theorem legacy_object_text_cleaned (level raw : Legacy.jsValue) :
  noChar "[" (Legacy.toStr level) = true ->
  let base :=
    match raw with
    | Legacy.JsString r => r
    | _ => "[object Object]"
    end in
  Legacy.heading Legacy.JsObject level raw None
  = "<h" ++ Legacy.toStr level ++ " id=" ++ Str.dq ++ headingSlug base
    ++ Str.dq ++ ">" ++ "[object Object]" ++ "</h" ++ Legacy.toStr level ++ ">"
  /\ removeAll "[object Object]" (Legacy.heading Legacy.JsObject level raw None)
     = "<h" ++ Legacy.toStr level ++ " id=" ++ Str.dq ++ headingSlug base
       ++ Str.dq ++ "></h" ++ Legacy.toStr level ++ ">"
  /\ (match raw with
      | Legacy.JsString _ => True
      | _ => headingSlug base = "object-object"
      end).
Proof.
  intros Hl base.
  assert (E : Legacy.heading Legacy.JsObject level raw None
              = ("<h" ++ Legacy.toStr level ++ " id=" ++ Str.dq
                 ++ headingSlug base ++ Str.dq ++ ">")
                ++ "[object Object]" ++ "</h" ++ Legacy.toStr level ++ ">").
  { unfold Legacy.heading, headingSlug, base.
    rewrite !append_assoc. destruct raw; reflexivity. }
  split; [rewrite E; now rewrite !append_assoc|]. split.
  - rewrite E.
    assert (Hpre : noChar "[" ("<h" ++ Legacy.toStr level ++ " id=" ++ Str.dq
                               ++ headingSlug base ++ Str.dq ++ ">") = true).
    { unfold noChar in *. rewrite !forallb_append.
      fold (noChar "[" (headingSlug base)).
      now rewrite Hl, headingSlug_noBracket. }
    assert (Hpost : noChar "[" ("</h" ++ Legacy.toStr level ++ ">") = true).
    { unfold noChar in *. rewrite !forallb_append. now rewrite Hl. }
    rewrite (removeAll_copy "[" "object Object]" _ _ Hpre).
    rewrite removeAll_leading.
    rewrite <- (append_nil_r ("</h" ++ Legacy.toStr level ++ ">")) at 1.
    rewrite (removeAll_copy "[" "object Object]" _ "" Hpost).
    rewrite append_nil_r. now rewrite !append_assoc.
  - destruct raw; try exact I; vm_compute; reflexivity.
Qed.

Lemma legacy_object_text_cleaned_witness :
  removeAll "[object Object]"
    (Legacy.heading Legacy.JsObject (Legacy.JsInteger 2 eq_refl)
       (Legacy.JsString "Factory Method") None)
  = "<h2 id=" ++ Str.dq ++ "factory-method" ++ Str.dq ++ "></h2>".
Proof.
  rewrite (proj1 (proj2 (legacy_object_text_cleaned (Legacy.JsInteger 2 eq_refl)
                           (Legacy.JsString "Factory Method") eq_refl))).
  vm_compute. reflexivity.
Defined.

(** ** The heading pattern as a match *)

(** X13: [headingRegex] succeeds on a line exactly when the line can be cut
    into 1 to 6 hashes, a non-empty run of whitespace, a part without line
    terminator and a rest; what it returns is such a cut, and any other
    such cut has the same hashes, whitespace no longer than the run taken
    and, behind that run, a second part no longer than the one returned. *)
Theorem headingRegex_first_match (line : string) :
  (headingRegex line <> None
   <-> exists m1 ws m2 tail, HeadingMatch line m1 ws m2 tail)
  /\ (forall m1 m2,
        headingRegex line = Some (m1, m2) ->
        HeadingMatch line m1 (Str.takeWhile Char.isSpace (remainder line)) m2
                     (afterCut line)
        /\ forall m1' ws' m2' tail',
             HeadingMatch line m1' ws' m2' tail' ->
             m1' = m1
             /\ (String.length ws'
                 <= String.length (Str.takeWhile Char.isSpace (remainder line)))%nat
             /\ (ws' = Str.takeWhile Char.isSpace (remainder line) ->
                 (String.length m2' <= String.length m2)%nat)).
Proof.
  split.
  - split.
    + destruct (headingRegex line) as [[m1 m2]|] eqn:E; [|congruence].
      intros _. eexists m1, _, m2, _. now apply headingRegex_sound.
    + intros (m1 & ws & m2 & tail & M). now apply (headingRegex_complete _ _ _ _ _ M).
  - intros m1 m2 E. split; [now apply headingRegex_sound|].
    intros m1' ws' m2' tail' M.
    destruct (headingRegex_greedy _ _ _ _ _ _ _ E M) as (E1 & (x & Ex) & Hm2).
    split; [exact E1|]. split.
    + rewrite Ex, length_append. lia.
    + intros Ews. destruct (Hm2 Ews) as (y & ->).
      rewrite length_append. lia.
Qed.

(** ** Carriage returns at the end of a line *)

Lemma dropWhile_append p a b :
  Str.dropWhile p (a ++ b)
  = if Str.forallb p a then Str.dropWhile p b else Str.dropWhile p a ++ b.
Proof.
  induction a as [|c a IH]; simpl; [reflexivity|].
  destruct (p c); simpl; [exact IH|reflexivity].
Qed.

Lemma takeWhile_append p a b :
  Str.takeWhile p (a ++ b)
  = if Str.forallb p a then a ++ Str.takeWhile p b else Str.takeWhile p a.
Proof.
  induction a as [|c a IH]; simpl; [reflexivity|].
  destruct (p c); simpl; [|reflexivity].
  rewrite IH. now destruct (Str.forallb p a).
Qed.

Lemma takeWhile_id p a : Str.forallb p a = true -> Str.takeWhile p a = a.
Proof.
  induction a as [|c a IH]; simpl; intros H; [reflexivity|].
  apply andb_true_iff in H as [Hc Ha]. now rewrite Hc, (IH Ha).
Qed.

Lemma isHeadingLine_shape line :
  isHeadingLine line = true ->
  exists c r,
    line = Str.takeWhile Char.isHash line ++ String c r
    /\ remainder line = String c r
    /\ Char.isSpace c = true.
Proof.
  unfold isHeadingLine. fold (remainder line). intros H.
  apply andb_true_iff in H as [_ H].
  destruct (remainder line) as [|c r] eqn:E; [discriminate|].
  exists c, r. repeat split; [|exact H].
  unfold remainder in E. rewrite drop_leadingHashes in E.
  rewrite <- E. symmetry. apply takeWhile_dropWhile.
Qed.

Lemma heading_line_cr line :
  isHeadingLine line = true ->
  leadingHashes (line ++ cr) = leadingHashes line
  /\ remainder (line ++ cr) = remainder line ++ cr.
Proof.
  intros H. destruct (isHeadingLine_shape line H) as (c & r & E & Er & Hc).
  assert (Et : Str.takeWhile Char.isHash (line ++ cr)
               = Str.takeWhile Char.isHash line).
  { rewrite E at 1. rewrite append_assoc.
    rewrite (takeWhile_all_append _ _ _ (takeWhile_all _ _)).
    cbn [append]. rewrite takeWhile_stop by now apply space_not_hash.
    apply append_nil_r. }
  assert (El : leadingHashes (line ++ cr) = leadingHashes line)
    by (unfold leadingHashes; now rewrite Et).
  split; [exact El|].
  unfold remainder at 1. rewrite El.
  replace (line ++ cr)
    with (Str.takeWhile Char.isHash line ++ String c r ++ cr)
    by (now rewrite <- append_assoc, <- E).
  unfold leadingHashes. rewrite drop_append. now rewrite Er.
Qed.

Lemma cutRemainder_cr line :
  isHeadingLine line = true -> cutRemainder (line ++ cr) = cutRemainder line.
Proof.
  intros H. destruct (heading_line_cr line H) as [_ Er].
  unfold cutRemainder, Str.trimStart. rewrite Er, dropWhile_append.
  destruct (Str.forallb Char.isSpace (remainder line)) eqn:Es.
  - now rewrite (dropWhile_all _ _ Es).
  - rewrite takeWhile_append.
    destruct (Str.forallb Char.isDot
                (Str.dropWhile Char.isSpace (remainder line))) eqn:Ed;
      [|reflexivity].
    change (Str.takeWhile Char.isDot cr) with "".
    now rewrite append_nil_r, (takeWhile_id _ _ Ed).
Qed.

Lemma isHeadingLine_cr line :
  isHeadingLine line = true -> isHeadingLine (line ++ cr) = true.
Proof.
  intros H. destruct (heading_line_cr line H) as [El Er].
  unfold isHeadingLine in *.
  fold (remainder (line ++ cr)). fold (remainder line) in H.
  rewrite El, Er.
  destruct (remainder line) as [|c r]; [now rewrite andb_false_r in H|].
  exact H.
Qed.

Lemma headingRecord_hashes n :
  headingRecord (Str.replicate n "#") = None.
Proof.
  rewrite headingRecord_spec. unfold isHeadingLine, leadingHashes.
  rewrite <- (append_nil_r (Str.replicate n "#")).
  rewrite (takeWhile_hashes n "" eq_refl), length_replicate, drop_replicate.
  now rewrite andb_false_r.
Qed.

(** X14: a carriage return at the end of a heading line, as files with
    CRLF line ends have, changes nothing in the record; but a line of 1 to
    6 hashes alone, which is no heading, becomes a heading with empty title
    once a carriage return follows it. *)
Theorem heading_line_with_cr (line : string) (n : nat) :
  isHeadingLine line = true ->
  (1 <= n <= 6)%nat ->
  headingRecord (line ++ cr) = headingRecord line
  /\ headingRecord (Str.replicate n "#") = None
  /\ headingRecord (Str.replicate n "#" ++ cr)
     = Some (mkHeading (Z.of_nat n) "" "").
Proof.
  intros H Hn. split; [|split].
  - rewrite !headingRecord_spec.
    rewrite (isHeadingLine_cr line H), H, (cutRemainder_cr line H).
    now rewrite (proj1 (heading_line_cr line H)).
  - apply headingRecord_hashes.
  - apply headingRecord_blank; [exact Hn|discriminate|reflexivity].
Qed.

Lemma heading_line_with_cr_witness :
  headingRecord ("## Builder" ++ cr) = Some (mkHeading 2 "Builder" "builder")
  /\ headingRecord ("##" ++ cr) = Some (mkHeading 2 "" "").
Proof.
  destruct (heading_line_with_cr "## Builder" 2) as (H1 & _ & H3);
    [vm_compute; reflexivity | lia |].
  split; [rewrite H1; vm_compute; reflexivity | exact H3].
Defined.

(** ** Titles with inline markup *)



